(** * Revision diffs of bookbrainz-site: the route [src/server/routes/revision.js]

    The route handler [router.get('/:id')] fetches a revision together with
    the per-entity-kind revisions that carry the same id, diffs each of them
    against its parent, classifies every raw change with the classifier of
    its entity kind and sends the concatenated diffs to the page.

    The file embeds the five classifiers, [diffRevisionsWithParents] and the
    handler.  The helper modules the route imports ([diffFormatters/base],
    [diffFormatters/entity], the three set formatters) are interfaces here:
    records of functions the classifiers are parametrised by.  A second part
    instantiates them from the written specification. *)

From Stdlib Require Import String Ascii List Bool Arith ZArith Lia.
From Stdlib Require Import Permutation.
Import ListNotations.
Open Scope string_scope.

(** ** JavaScript values carried by a change *)

#[local] Set Warnings "-register-all".

Inductive value : Type :=
| VNull
| VBool (b : bool)
| VNum (n : Z)
| VStr (s : string)
| VArr (items : list value)
| VObj (fields : list (string * value)).

(** ** The parts of lodash the route calls *)

Module Lodash.

(** [_.isEqual] on two paths: deep equality of arrays of strings. *)
Fixpoint isEqual (p q : list string) : bool :=
  match p, q with
  | [], [] => true
  | x :: p', y :: q' => String.eqb x y && isEqual p' q'
  | _, _ => false
  end.

Definition code (a : ascii) : nat := nat_of_ascii a.

Definition between (lo hi : nat) (a : ascii) : bool :=
  ((lo <=? code a) && (code a <=? hi))%nat.

Definition isLower : ascii -> bool := between 97 122.
Definition isUpper : ascii -> bool := between 65 90.
Definition isDigit : ascii -> bool := between 48 57.
Definition isLetter (a : ascii) : bool := isLower a || isUpper a.

(** The complement of lodash's [reAsciiWord] class
    [\x00-\x2f\x3a-\x40\x5b-\x60\x7b-\x7f]. *)
Definition isAsciiWordChar (a : ascii) : bool :=
  negb (between 0 47 a || between 58 64 a || between 91 96 a
        || between 123 127 a).

(** [reHasUnicodeWord]:
    [a-z][A-Z] | [A-Z]{2}[a-z] | [0-9][a-zA-Z] | [a-zA-Z][0-9] | [^a-zA-Z0-9 ] *)
Fixpoint hasUnicodeWord (s : string) : bool :=
  match s with
  | EmptyString => false
  | String a s' =>
      negb (isLetter a || isDigit a || Ascii.eqb a " "%char)
      || match s' with
         | EmptyString => false
         | String b s'' =>
             (isLower a && isUpper b)
             || (isDigit a && isLetter b)
             || (isLetter a && isDigit b)
             || match s'' with
                | EmptyString => false
                | String c _ => isUpper a && isUpper b && isLower c
                end
         end
      || hasUnicodeWord s'
  end.

Definition flush (cur : list ascii) : list string :=
  match cur with
  | [] => []
  | _ => [string_of_list_ascii (rev cur)]
  end.

(** [asciiWords]: the maximal runs of word characters, in order. *)
Fixpoint asciiWordsFrom (cur : list ascii) (s : string) : list string :=
  match s with
  | EmptyString => flush cur
  | String a s' =>
      if isAsciiWordChar a then asciiWordsFrom (a :: cur) s'
      else flush cur ++ asciiWordsFrom [] s'
  end.

Definition asciiWords : string -> list string := asciiWordsFrom [].

Definition toUpper (a : ascii) : ascii :=
  if isLower a then ascii_of_nat (code a - 32) else a.

Definition upperFirst (s : string) : string :=
  match s with
  | EmptyString => EmptyString
  | String a s' => String (toUpper a) s'
  end.

(** The compounder drops apostrophes before it splits into words. *)
Fixpoint dropApostrophes (s : string) : string :=
  match s with
  | EmptyString => EmptyString
  | String a s' =>
      if Ascii.eqb a "'"%char then dropApostrophes s'
      else String a (dropApostrophes s')
  end.

(** [_.startCase]: [createCompounder] folding
    [result + (index ? ' ' : '') + upperFirst(word)] over the words.
    lodash splits with [asciiWords] exactly when [hasUnicodeWord] is false;
    that is the splitter embedded here, and [startCase_fields_ascii] below
    shows that every string the route passes takes that branch.  On ASCII
    input [deburr] changes nothing.  Strings for which [hasUnicodeWord]
    holds, camel-cased names among them, are split otherwise by lodash and
    lie outside this embedding. *)
Definition startCase (s : string) : string :=
  String.concat " " (map upperFirst (asciiWords (dropApostrophes s))).

(** [_.concat] of arrays: each array argument is spliced in, in order. *)
Definition concat {A : Type} (arrays : list (list A)) : list A :=
  List.concat arrays.

End Lodash.

(** ** Raw changes *)

(** Modelled from the spec: the kind of a change; changes are produced by
    [revision.diff(parent)], which is not part of the route. *)
Inductive ChangeKind : Type := Added | Removed | Modified.

(** Modelled from the spec: the raw change of section 3, produced by the
    absent [revision.diff(parent)].  The route reads nothing but [path]. *)

Record RawChange : Type := mkChange {
  path : list string;
  kind : ChangeKind;
  lhs : option value;
  rhs : option value
}.

(** What a classifier hands back: its own literal [null], its own literal
    [[]], or the value of the formatter call it returns.  [Formatted v]
    records which [return] was taken; the value [v] is the formatter's
    business and may itself be any JavaScript value. *)
Inductive Returned (F : Type) : Type :=
| Null
| EmptyArray
| Formatted (v : F).

Arguments Null {F}.
Arguments EmptyArray {F}.
Arguments Formatted {F} v.

Definition isFormatted {F : Type} (r : Returned F) : bool :=
  match r with
  | Formatted _ => true
  | _ => false
  end.

(** ** Interfaces of the imported formatter modules *)

(** [helpers/diffFormatters/base].  The label of [formatAreaChange] is an
    optional argument: [None] is a call that leaves it out. *)
Record BaseFormatter (F : Type) : Type := {
  formatScalarChange : RawChange -> string -> F;
  formatGenderChange : RawChange -> F;
  formatEndedChange : RawChange -> F;
  formatTypeChange : RawChange -> string -> F;
  formatAreaChange : RawChange -> option string -> F
}.

Arguments formatScalarChange {F} _ _ _.
Arguments formatGenderChange {F} _ _.
Arguments formatEndedChange {F} _ _.
Arguments formatTypeChange {F} _ _ _.
Arguments formatAreaChange {F} _ _ _.

(** [helpers/diffFormatters/languageSet], [publisherSet], [releaseEventSet]. *)
Record SetFormatter (F : Type) : Type := {
  changed : RawChange -> bool;
  format : RawChange -> F
}.

Arguments changed {F} _ _.
Arguments format {F} _ _.

(** ** The five classifiers *)

Section Classifiers.

Variable F : Type.
Variable baseFormatter : BaseFormatter F.
Variables publisherSetFormatter releaseEventSetFormatter
  languageSetFormatter : SetFormatter F.

Import Lodash.

Definition formatAuthorChange (change : RawChange) : Returned F :=
  if isEqual (path change) ["beginDate"] then
    Formatted (formatScalarChange baseFormatter change "Begin Date")
  else if isEqual (path change) ["endDate"] then
    Formatted (formatScalarChange baseFormatter change "End Date")
  else if isEqual (path change) ["gender"] then
    Formatted (formatGenderChange baseFormatter change)
  else if isEqual (path change) ["ended"] then
    Formatted (formatEndedChange baseFormatter change)
  else if isEqual (path change) ["type"] then
    Formatted (formatTypeChange baseFormatter change "Author Type")
  else if isEqual (path change) ["beginArea"]
          || isEqual (path change) ["beginArea"; "name"] then
    Formatted (formatAreaChange baseFormatter change (Some "Begin Area"))
  else if isEqual (path change) ["endArea"]
          || isEqual (path change) ["endArea"; "name"] then
    Formatted (formatAreaChange baseFormatter change (Some "End Area"))
  else Null.

Definition formatEditionChange (change : RawChange) : Returned F :=
  if isEqual (path change) ["editionGroupBbid"] then
    Formatted (formatScalarChange baseFormatter change "EditionGroup")
  else if changed publisherSetFormatter change then
    Formatted (format publisherSetFormatter change)
  else if changed releaseEventSetFormatter change then
    Formatted (format releaseEventSetFormatter change)
  else if changed languageSetFormatter change then
    Formatted (format languageSetFormatter change)
  else if isEqual (path change) ["width"]
          || isEqual (path change) ["height"]
          || isEqual (path change) ["depth"]
          || isEqual (path change) ["weight"] then
    Formatted (formatScalarChange baseFormatter change
                 (startCase (hd "" (path change))))
  else if isEqual (path change) ["pages"] then
    Formatted (formatScalarChange baseFormatter change "Page Count")
  else if isEqual (path change) ["editionFormat"] then
    Formatted (formatTypeChange baseFormatter change "Edition Format")
  else if isEqual (path change) ["editionStatus"] then
    Formatted (formatTypeChange baseFormatter change "Edition Status")
  else Null.

Definition formatPublisherChange (change : RawChange) : Returned F :=
  if isEqual (path change) ["beginDate"] then
    Formatted (formatScalarChange baseFormatter change "Begin Date")
  else if isEqual (path change) ["endDate"] then
    Formatted (formatScalarChange baseFormatter change "End Date")
  else if isEqual (path change) ["ended"] then
    Formatted (formatEndedChange baseFormatter change)
  else if isEqual (path change) ["type"] then
    Formatted (formatTypeChange baseFormatter change "Publisher Type")
  else if isEqual (path change) ["area"]
          || isEqual (path change) ["area"; "name"] then
    Formatted (formatAreaChange baseFormatter change None)
  else Null.

Definition formatWorkChange (change : RawChange) : Returned F :=
  if changed languageSetFormatter change then
    Formatted (format languageSetFormatter change)
  else if isEqual (path change) ["type"] then
    Formatted (formatTypeChange baseFormatter change "Work Type")
  else Null.

Definition formatEditionGroupChange (change : RawChange) : Returned F :=
  if isEqual (path change) ["type"] then
    Formatted (formatTypeChange baseFormatter change "Edition Group Type")
  else EmptyArray.

End Classifiers.

(** ** Promises

    A settled Bluebird promise: the instant it settled at and what it settled
    with.  Instants only decide which rejection a combinator reports. *)

Inductive Error : Type :=
| NotFoundError
| StoreError (message : string).

Inductive Outcome (A : Type) : Type :=
| Resolved (v : A)
| Rejected (e : Error).

Arguments Resolved {A} v.
Arguments Rejected {A} e.

Record Promise (A : Type) : Type := mkPromise {
  settledAt : nat;
  outcome : Outcome A
}.

Arguments mkPromise {A} _ _.
Arguments settledAt {A} _.
Arguments outcome {A} _.

Module Bluebird.

(** [p.then(f)] where [f] returns a promise; the instant of [f v] counts from
    the instant [p] settled at. *)
Definition thenP {A B : Type} (p : Promise A) (f : A -> Promise B) : Promise B :=
  match outcome p with
  | Resolved v =>
      mkPromise (settledAt p + settledAt (f v)) (outcome (f v))
  | Rejected e => mkPromise (settledAt p) (Rejected e)
  end.

(** [p.then(f)] where [f] returns a value or throws. *)
Definition thenSync {A B : Type} (p : Promise A) (f : A -> Outcome B)
  : Promise B :=
  match outcome p with
  | Resolved v => mkPromise (settledAt p) (f v)
  | Rejected e => mkPromise (settledAt p) (Rejected e)
  end.

(** Waiting for two promises: fulfilled once both are, rejected as soon as
    one of them is, with the rejection that came first.  Rejections of
    distinct promises happen at distinct instants; for equal instants the
    first argument is taken, which no statement below relies on. *)
Definition both {A B : Type} (p : Promise A) (q : Promise B)
  : Promise (A * B) :=
  match outcome p, outcome q with
  | Resolved a, Resolved b =>
      mkPromise (Nat.max (settledAt p) (settledAt q)) (Resolved (a, b))
  | Rejected e, Resolved _ => mkPromise (settledAt p) (Rejected e)
  | Resolved _, Rejected e => mkPromise (settledAt q) (Rejected e)
  | Rejected e, Rejected e' =>
      if (settledAt q <? settledAt p)%nat then mkPromise (settledAt q) (Rejected e')
      else mkPromise (settledAt p) (Rejected e)
  end.

(** [Promise.all] over an array of promises. *)
Fixpoint all {A : Type} (ps : list (Promise A)) : Promise (list A) :=
  match ps with
  | [] => mkPromise 0 (Resolved [])
  | p :: ps' =>
      thenSync (both p (all ps')) (fun '(v, vs) => Resolved (v :: vs))
  end.

(** [Promise.join(p1, ..., p6, handler)]: the handler runs on the six values
    in argument order once every promise is fulfilled; what it throws rejects
    the joined promise. *)
Definition join {A1 A2 A3 A4 A5 A6 R : Type}
    (p1 : Promise A1) (p2 : Promise A2) (p3 : Promise A3)
    (p4 : Promise A4) (p5 : Promise A5) (p6 : Promise A6)
    (handler : A1 -> A2 -> A3 -> A4 -> A5 -> A6 -> Outcome R) : Promise R :=
  thenSync (both p1 (both p2 (both p3 (both p4 (both p5 p6)))))
    (fun '(v1, (v2, (v3, (v4, (v5, v6))))) => handler v1 v2 v3 v4 v5 v6).

End Bluebird.

(** ** The store behind the route *)

Inductive EntityKind : Type :=
| Author | Edition | EditionGroup | Publisher | Work.

(** The base revision as [fetch] delivers it. *)
Record Revision : Type := { toJSON : value }.

(** One [<Entity>Revision] row: [parent()], [diff(parent)] and
    [related('entity')]. *)
Record EntityRevision : Type := {
  parent : Promise (option value);
  diff : option value -> Promise (list RawChange);
  related_entity : value
}.

(** [req.app.locals.orm], seen through the two queries the handler issues:
    [new Revision({id}).fetch(...)], which resolves to [null] for an id
    without a record, and [model.forge().where('id', id).fetchAll(...)]. *)
Record Orm : Type := {
  fetch : string -> Promise (option Revision);
  fetchAll : EntityKind -> string -> Promise (list EntityRevision)
}.

(** The object [Promise.props] builds for one row. *)
Record Diff : Type := mkDiff {
  changes : list RawChange;
  entity : value
}.

(** [helpers/diffFormatters/entity]: [B] is the type of one formatted
    block. *)
Record EntityFormatter (F B : Type) : Type := {
  formatEntityDiffs : list Diff -> string -> (RawChange -> Returned F) -> list B
}.

Arguments formatEntityDiffs {F B} _ _ _ _.

(** The object handed to [generateProps], which adds the request-wide
    properties to it; the markup is React's rendering of the same
    properties. *)
Record Props (B : Type) : Type := mkProps {
  diffs : list B;
  revision : value;
  title : string
}.

Arguments mkProps {B} _ _ _.
Arguments diffs {B} _.
Arguments revision {B} _.
Arguments title {B} _.

Record Page (B : Type) : Type := mkPage {
  props : Props B;
  script : string
}.

Arguments mkPage {B} _ _.
Arguments props {B} _.
Arguments script {B} _.

(** What the client of the route observes: [res.send(page)] or
    [next(error)]. *)
Inductive Response (B : Type) : Type :=
| Send (page : Page B)
| Next (e : Error).

Arguments Send {B} page.
Arguments Next {B} e.

(** ** The route *)

Definition diffRevisionsWithParents (revisions : list EntityRevision)
  : Promise (list Diff) :=
  Bluebird.all
    (map (fun revision =>
            Bluebird.thenP (parent revision)
              (fun parent =>
                 Bluebird.thenSync (diff revision parent)
                   (fun changes =>
                      Resolved (mkDiff changes (related_entity revision)))))
         revisions).

Section Route.

Variables F B : Type.
Variable baseFormatter : BaseFormatter F.
Variables publisherSetFormatter releaseEventSetFormatter
  languageSetFormatter : SetFormatter F.
Variable entityFormatter : EntityFormatter F B.
Variable orm : Orm.

Definition _createRevision (model : EntityKind) (id : string)
  : Promise (list Diff) :=
  Bluebird.thenP (fetchAll orm model id) diffRevisionsWithParents.

(** The callback of [Promise.join], with its parameters in the order the
    source lists them.  [Resolved page] stands for [res.send(page)] having
    been called: building the properties and rendering them is taken to
    succeed. *)
Definition joined (revision : option Revision)
    (authorDiffs editionDiffs workDiffs publisherDiffs
       editionGroupDiffs : list Diff) : Outcome (Page B) :=
  match revision with
  | None => Rejected NotFoundError
  | Some revision =>
      let diffs :=
        Lodash.concat
          [ formatEntityDiffs entityFormatter authorDiffs "Author"
              (formatAuthorChange F baseFormatter);
            formatEntityDiffs entityFormatter editionDiffs "Edition"
              (formatEditionChange F baseFormatter publisherSetFormatter
                 releaseEventSetFormatter languageSetFormatter);
            formatEntityDiffs entityFormatter editionGroupDiffs "EditionGroup"
              (formatEditionGroupChange F baseFormatter);
            formatEntityDiffs entityFormatter publisherDiffs "Publisher"
              (formatPublisherChange F baseFormatter);
            formatEntityDiffs entityFormatter workDiffs "Work"
              (formatWorkChange F baseFormatter languageSetFormatter) ] in
      Resolved
        (mkPage (mkProps diffs (toJSON revision) "RevisionPage")
           "/js/revision.js")
  end.

(** [router.get('/:id', ...)] up to the response: [.catch(next)] turns a
    rejection of the joined promise into [next(error)]. *)
Definition router_get (id : string) : Response B :=
  let revisionPromise := fetch orm id in
  let authorDiffsPromise := _createRevision Author id in
  let editionDiffsPromise := _createRevision Edition id in
  let editionGroupDiffsPromise := _createRevision EditionGroup id in
  let publisherDiffsPromise := _createRevision Publisher id in
  let workDiffsPromise := _createRevision Work id in
  match outcome
          (Bluebird.join
             revisionPromise authorDiffsPromise editionDiffsPromise
             workDiffsPromise publisherDiffsPromise editionGroupDiffsPromise
             joined) with
  | Resolved page => Send page
  | Rejected e => Next e
  end.

(** The promise the callback of [Promise.join] waits for. *)
Definition fanIn (id : string) :=
  Bluebird.both (fetch orm id)
    (Bluebird.both (_createRevision Author id)
       (Bluebird.both (_createRevision Edition id)
          (Bluebird.both (_createRevision Work id)
             (Bluebird.both (_createRevision Publisher id)
                (_createRevision EditionGroup id))))).

End Route.

(** ** The formatter modules, after the written specification

    None of the imported formatter modules is part of the route.  The
    definitions of this module follow the specification's sections 3, 4.1,
    4.2 and 4.4; they serve the statements that speak of what a formatted
    change or a block contains. *)

Module SpecModel.

(** Modelled from the spec: the formatted change of section 3, which the
    absent formatter modules build. *)
Inductive FormattedChange : Type :=
| FieldChange (label : string) (kind : ChangeKind)
    (renderedOld renderedNew : option value)
| SetChange (label : string) (additions removals : list value).

Definition label (f : FormattedChange) : string :=
  match f with
  | FieldChange l _ _ _ => l
  | SetChange l _ _ => l
  end.


(** Modelled from the spec: the block of section 3, built by the absent
    [formatEntityDiffs]. *)
Record EntityDiffBlock : Type := mkBlock {
  entityType : string;
  entityId : value;
  formattedChanges : list FormattedChange
}.

Fixpoint value_eqb (a b : value) {struct a} : bool :=
  match a, b with
  | VNull, VNull => true
  | VBool x, VBool y => Bool.eqb x y
  | VNum x, VNum y => Z.eqb x y
  | VStr x, VStr y => String.eqb x y
  | VArr xs, VArr ys =>
      (fix items (xs ys : list value) {struct xs} : bool :=
         match xs, ys with
         | [], [] => true
         | x :: xs', y :: ys' => value_eqb x y && items xs' ys'
         | _, _ => false
         end) xs ys
  | VObj fs, VObj gs =>
      (fix fields (fs gs : list (string * value)) {struct fs} : bool :=
         match fs, gs with
         | [], [] => true
         | (k, x) :: fs', (l, y) :: gs' =>
             String.eqb k l && value_eqb x y && fields fs' gs'
         | _, _ => false
         end) fs gs
  | _, _ => false
  end.

Fixpoint property (key : string) (fields : list (string * value))
  : option value :=
  match fields with
  | [] => None
  | (k, v) :: fields' => if String.eqb k key then Some v else property key fields'
  end.

Section Formatters.

(** The resolver of section 6: the display name behind a reference, when
    there is one. *)
Variable resolveName : value -> option string.

Definition displayName (reference : value) : value :=
  match resolveName reference with
  | Some name => VStr name
  | None => VStr "Unknown"
  end.

(** Modelled from the spec: [formatScalarChange] of the absent
    [diffFormatters/base], a pass-through of the old and new value. *)
Definition formatScalarChange (change : RawChange) (label : string)
  : FormattedChange :=
  FieldChange label (kind change) (lhs change) (rhs change).

Definition yesNo (v : value) : value :=
  match v with
  | VBool true => VStr "Yes"
  | VBool false => VStr "No"
  | _ => v
  end.

(** Modelled from the spec: [formatEndedChange] of the absent
    [diffFormatters/base]; the specification gives it no label, the field
    name stands in. *)
Definition formatEndedChange (change : RawChange) : FormattedChange :=
  FieldChange "ended" (kind change)
    (option_map yesNo (lhs change)) (option_map yesNo (rhs change)).

(** Modelled from the spec: [formatTypeChange] of the absent
    [diffFormatters/base], which renders the name behind the reference or
    the placeholder. *)
Definition formatTypeChange (change : RawChange) (label : string)
  : FormattedChange :=
  FieldChange label (kind change)
    (option_map displayName (lhs change))
    (option_map displayName (rhs change)).

(** Modelled from the spec: [formatGenderChange] of the absent
    [diffFormatters/base]; the specification gives it no label, the field
    name stands in. *)
Definition formatGenderChange (change : RawChange) : FormattedChange :=
  formatTypeChange change "gender".

(** Modelled from the spec: the display name [formatAreaChange] renders for
    an area carried by the field itself, given as [{name: ...}] or as a
    bare reference. *)
Definition areaName (area : value) : value :=
  match area with
  | VObj fields =>
      match property "name" fields with
      | Some name => name
      | None => VStr "Unknown"
      end
  | _ => displayName area
  end.

(** Modelled from the spec: the change is to the [.name] sub-path of an
    area field, whose sides are display names already. *)
Definition onNameSubPath (change : RawChange) : bool :=
  match path change with
  | [_; segment] => String.eqb segment "name"
  | _ => false
  end.

(** Modelled from the spec: what [formatAreaChange] renders for one side of
    a change, the display name in both cases. *)
Definition areaSide (change : RawChange) (side : value) : value :=
  if onNameSubPath change then side else areaName side.

(** Modelled from the spec: [formatAreaChange(change, label = 'Area')] of
    the absent [diffFormatters/base]. *)
Definition formatAreaChange (change : RawChange) (label : option string)
  : FormattedChange :=
  FieldChange
    (match label with Some l => l | None => "Area" end)
    (kind change)
    (option_map (areaSide change) (lhs change))
    (option_map (areaSide change) (rhs change)).

Definition baseFormatter : BaseFormatter FormattedChange :=
  Build_BaseFormatter FormattedChange
    formatScalarChange formatGenderChange formatEndedChange
    formatTypeChange formatAreaChange.

End Formatters.

Definition members (side : option value) : list value :=
  match side with
  | Some (VArr items) => items
  | _ => []
  end.

Definition member (m : value) (ms : list value) : bool :=
  existsb (value_eqb m) ms.

(** Modelled from the spec: [changed] and [format] of the absent set
    formatters (section 4.2): [changed] compares the root of the path with
    the name of the field, [format] lists the members only the new side and
    only the old side have.  The specification gives no label, the field
    name stands in. *)
Definition setFormatter (field : string) : SetFormatter FormattedChange :=
  {| changed := fun change =>
       match path change with
       | root :: _ => String.eqb root field
       | [] => false
       end;
     format := fun change =>
       let old := members (lhs change) in
       let new := members (rhs change) in
       SetChange field
         (filter (fun m => negb (member m old)) new)
         (filter (fun m => negb (member m new)) old) |}.

Definition publisherSetFormatter := setFormatter "publisherSet".
Definition releaseEventSetFormatter := setFormatter "releaseEventSet".
Definition languageSetFormatter := setFormatter "languageSet".

Fixpoint kept (results : list (Returned FormattedChange))
  : list FormattedChange :=
  match results with
  | [] => []
  | Formatted f :: results' => f :: kept results'
  | _ :: results' => kept results'
  end.

(** Modelled from the spec: the aggregation of section 4.4, which the absent
    [formatEntityDiffs] of [diffFormatters/entity] performs for every diff:
    the classifier is applied to each raw change, empty results are dropped,
    the others keep the order of the changes. *)
Definition aggregate (entityType : string) (rawChangeList : list RawChange)
    (classify : RawChange -> Returned FormattedChange) (entityMetadata : value)
  : EntityDiffBlock :=
  mkBlock entityType entityMetadata (kept (map classify rawChangeList)).

(** Modelled from the spec: [formatEntityDiffs] of the absent
    [diffFormatters/entity], one aggregated block per diff, in order. *)
Definition formatEntityDiffs (diffs : list Diff) (entityType : string)
    (classify : RawChange -> Returned FormattedChange)
  : list EntityDiffBlock :=
  map (fun d => aggregate entityType (changes d) classify (entity d)) diffs.

Definition entityFormatter
  : EntityFormatter FormattedChange EntityDiffBlock :=
  Build_EntityFormatter FormattedChange EntityDiffBlock formatEntityDiffs.

(** A resolver for examples: a reference carries its name under [label]. *)
Definition labelOf (reference : value) : option string :=
  match reference with
  | VObj fields =>
      match property "label" fields with
      | Some (VStr name) => Some name
      | _ => None
      end
  | VStr name => Some name
  | _ => None
  end.

End SpecModel.

(** ** The table of recognized fields

    Section 4.3 of the specification lists, per entity kind, the fields a
    classifier recognizes.  The fields matched by path are listed here with
    the [.name] aliases written out; the set-valued fields are recognized by
    the [changed] predicate of their formatter. *)

Section Table.

Variable F : Type.
Variable baseFormatter : BaseFormatter F.
Variables publisherSetFormatter releaseEventSetFormatter
  languageSetFormatter : SetFormatter F.

Definition recognizedPaths (k : EntityKind) : list (list string) :=
  match k with
  | Author =>
      [ ["beginDate"]; ["endDate"]; ["gender"]; ["ended"]; ["type"];
        ["beginArea"]; ["beginArea"; "name"];
        ["endArea"]; ["endArea"; "name"] ]
  | Edition =>
      [ ["editionGroupBbid"]; ["width"]; ["height"]; ["depth"]; ["weight"];
        ["pages"]; ["editionFormat"]; ["editionStatus"] ]
  | EditionGroup => [ ["type"] ]
  | Publisher =>
      [ ["beginDate"]; ["endDate"]; ["ended"]; ["type"];
        ["area"]; ["area"; "name"] ]
  | Work => [ ["type"] ]
  end.

Definition setFields (k : EntityKind) : list (SetFormatter F) :=
  match k with
  | Edition =>
      [publisherSetFormatter; releaseEventSetFormatter; languageSetFormatter]
  | Work => [languageSetFormatter]
  | _ => []
  end.

(** The classifier the handler passes along with each kind. *)
Definition classifier (k : EntityKind) : RawChange -> Returned F :=
  match k with
  | Author => formatAuthorChange F baseFormatter
  | Edition =>
      formatEditionChange F baseFormatter publisherSetFormatter
        releaseEventSetFormatter languageSetFormatter
  | EditionGroup => formatEditionGroupChange F baseFormatter
  | Publisher => formatPublisherChange F baseFormatter
  | Work => formatWorkChange F baseFormatter languageSetFormatter
  end.

(** A change matches none of the recognized fields of a kind. *)
Definition unrecognized (k : EntityKind) (change : RawChange) : bool :=
  negb (existsb (Lodash.isEqual (path change)) (recognizedPaths k))
  && forallb (fun s => negb (changed s change)) (setFields k).

(** The sub-paths a classifier lists next to the field itself. *)
Definition aliases (k : EntityKind) : list (list string) :=
  match k with
  | Author => [ ["beginArea"; "name"]; ["endArea"; "name"] ]
  | Publisher => [ ["area"; "name"] ]
  | _ => []
  end.

(** What each classifier ends with. *)
Definition fallThrough (k : EntityKind) : Returned F :=
  match k with
  | EditionGroup => EmptyArray
  | _ => Null
  end.

End Table.

Arguments recognizedPaths k : simpl nomatch.

(** ** The engine of the specification

    The classifiers and the handler of the route, run with the formatter
    modules of [SpecModel]. *)

Module Engine.

Import SpecModel.

Definition classify (resolveName : value -> option string) (k : EntityKind)
  : RawChange -> Returned FormattedChange :=
  classifier FormattedChange (baseFormatter resolveName)
    publisherSetFormatter releaseEventSetFormatter languageSetFormatter k.

Definition unknown (k : EntityKind) (change : RawChange) : bool :=
  unrecognized FormattedChange
    publisherSetFormatter releaseEventSetFormatter languageSetFormatter
    k change.

Definition getRevisionDiff (resolveName : value -> option string)
    (orm : Orm) (revisionId : string) : Response EntityDiffBlock :=
  router_get FormattedChange EntityDiffBlock (baseFormatter resolveName)
    publisherSetFormatter releaseEventSetFormatter languageSetFormatter
    entityFormatter orm revisionId.



End Engine.

(** ** Sample changes and stores *)

Module Samples.

Definition resolvedAt {A : Type} (t : nat) (v : A) : Promise A :=
  mkPromise t (Resolved v).

Definition rejectedAt {A : Type} (t : nat) (e : Error) : Promise A :=
  mkPromise t (Rejected e).

Definition revisionIdChange : RawChange :=
  mkChange ["revisionId"] Modified (Some (VNum 41)) (Some (VNum 42)).

Definition beginDateChange : RawChange :=
  mkChange ["beginDate"] Modified
    (Some (VStr "1990-01-01")) (Some (VStr "1991-01-01")).

Definition beginDateYearChange : RawChange :=
  mkChange ["beginDate"; "year"] Modified
    (Some (VStr "1990-01-01")) (Some (VStr "1991-01-01")).

Definition endDateChange : RawChange :=
  mkChange ["endDate"] Modified
    (Some (VStr "2001-01-01")) (Some (VStr "2002-02-02")).

Definition beginAreaChange : RawChange :=
  mkChange ["beginArea"] Modified
    (Some (VObj [("id", VNum 7); ("name", VStr "Paris")]))
    (Some (VObj [("id", VNum 9); ("name", VStr "Lyon")])).

Definition beginAreaNameChange : RawChange :=
  mkChange ["beginArea"; "name"] Modified
    (Some (VStr "Paris")) (Some (VStr "Lyon")).

Definition areaNameChange : RawChange :=
  mkChange ["area"; "name"] Modified
    (Some (VStr "Paris")) (Some (VStr "Lyon")).

Definition widthChange : RawChange :=
  mkChange ["width"] Modified (Some (VNum 120)) (Some (VNum 125)).

Definition typeChange : RawChange :=
  mkChange ["type"] Modified
    (Some (VObj [("id", VNum 1); ("label", VStr "Person")]))
    (Some (VObj [("id", VNum 2); ("label", VStr "Group")])).

Definition someAuthor : value :=
  VObj [("bbid", VStr "a-1"); ("name", VStr "An Author")].

Definition authorRow : EntityRevision :=
  {| parent := resolvedAt 2 (Some (VObj [("endDate", VStr "2001-01-01")]));
     diff := fun _ => resolvedAt 1 [endDateChange];
     related_entity := someAuthor |}.

Definition revision42 : Revision :=
  {| toJSON := VObj [("id", VNum 42)] |}.

(** Revision 42 exists and touches one author; no other id has a record. *)
Definition store : Orm :=
  {| fetch := fun id =>
       if String.eqb id "42" then resolvedAt 5 (Some revision42)
       else resolvedAt 5 None;
     fetchAll := fun k id =>
       match k with
       | Author =>
           if String.eqb id "42" then resolvedAt 3 [authorRow]
           else resolvedAt 3 []
       | _ => resolvedAt 4 []
       end |}.

Definition someWork : value :=
  VObj [("bbid", VStr "w-1"); ("name", VStr "A Work")].

Definition workRow : EntityRevision :=
  {| parent := resolvedAt 0 None;
     diff := fun _ => resolvedAt 0 [typeChange; revisionIdChange];
     related_entity := someWork |}.

(** Revision 42 touches an author and a work; the work is resolved long
    before the author. *)
Definition busyStore : Orm :=
  {| fetch := fetch store;
     fetchAll := fun k id =>
       match k with
       | Author => resolvedAt 9 [authorRow]
       | Work => resolvedAt 1 [workRow]
       | _ => resolvedAt 4 []
       end |}.

(** The same store while the query for author revisions fails. *)
Definition failingStore : Orm :=
  {| fetch := fetch store;
     fetchAll := fun k id =>
       match k with
       | Author => rejectedAt 1 (StoreError "connection lost")
       | _ => fetchAll store k id
       end |}.

End Samples.

(** ** The chains as tables

    Each classifier is a chain of path tests.  The tests on paths are listed
    here as a table from paths to the formatter and the label the chain
    passes; [lookup] takes the first entry whose path is equal. *)

Inductive Descriptor : Type :=
| ScalarField (label : string)
| GenderField
| EndedField
| TypeField (label : string)
| AreaField (label : option string).

Definition describe {F : Type} (bf : BaseFormatter F) (d : Descriptor)
    (change : RawChange) : F :=
  match d with
  | ScalarField l => formatScalarChange bf change l
  | GenderField => formatGenderChange bf change
  | EndedField => formatEndedChange bf change
  | TypeField l => formatTypeChange bf change l
  | AreaField l => formatAreaChange bf change l
  end.

Definition pathTable (k : EntityKind) : list (list string * Descriptor) :=
  match k with
  | Author =>
      [ (["beginDate"], ScalarField "Begin Date");
        (["endDate"], ScalarField "End Date");
        (["gender"], GenderField);
        (["ended"], EndedField);
        (["type"], TypeField "Author Type");
        (["beginArea"], AreaField (Some "Begin Area"));
        (["beginArea"; "name"], AreaField (Some "Begin Area"));
        (["endArea"], AreaField (Some "End Area"));
        (["endArea"; "name"], AreaField (Some "End Area")) ]
  | Edition =>
      [ (["editionGroupBbid"], ScalarField "EditionGroup");
        (["width"], ScalarField "Width");
        (["height"], ScalarField "Height");
        (["depth"], ScalarField "Depth");
        (["weight"], ScalarField "Weight");
        (["pages"], ScalarField "Page Count");
        (["editionFormat"], TypeField "Edition Format");
        (["editionStatus"], TypeField "Edition Status") ]
  | EditionGroup => [ (["type"], TypeField "Edition Group Type") ]
  | Publisher =>
      [ (["beginDate"], ScalarField "Begin Date");
        (["endDate"], ScalarField "End Date");
        (["ended"], EndedField);
        (["type"], TypeField "Publisher Type");
        (["area"], AreaField None);
        (["area"; "name"], AreaField None) ]
  | Work => [ (["type"], TypeField "Work Type") ]
  end.

Fixpoint lookup (p : list string) (table : list (list string * Descriptor))
  : option Descriptor :=
  match table with
  | [] => None
  | (q, d) :: table' => if Lodash.isEqual p q then Some d else lookup p table'
  end.

(** ** Rejections

    The rejections among the promises a combinator waits for, each with the
    instant it happened at. *)

Definition rejection {A : Type} (p : Promise A) : list (nat * Error) :=
  match outcome p with
  | Rejected e => [(settledAt p, e)]
  | Resolved _ => []
  end.

(** The rejections among the six promises of the handler, in the order
    [Promise.join] is given them. *)
Definition rejections (orm : Orm) (id : string) : list (nat * Error) :=
  rejection (fetch orm id)
  ++ rejection (_createRevision orm Author id)
  ++ rejection (_createRevision orm Edition id)
  ++ rejection (_createRevision orm Work id)
  ++ rejection (_createRevision orm Publisher id)
  ++ rejection (_createRevision orm EditionGroup id).

Definition earliestIn (x : nat * Error) (l : list (nat * Error)) : Prop :=
  In x l /\ forall y, In y l -> fst x <= fst y.

(** The promise [p] reports the earliest of the rejections [l], and is
    fulfilled when there is none. *)
Definition summarizes {A : Type} (p : Promise A) (l : list (nat * Error))
  : Prop :=
  match rejection p with
  | [] => l = []
  | x :: _ => earliestIn x l
  end.

(** The row cannot be diffed: [parent()] is rejected, or [diff(parent)]
    is. *)
Definition rowFails (row : EntityRevision) : bool :=
  match outcome (parent row) with
  | Rejected _ => true
  | Resolved p =>
      match outcome (diff row p) with
      | Rejected _ => true
      | Resolved _ => false
      end
  end.

(** ** Further sample changes and stores *)

Module Cases.

Import Samples.

Definition languageSetChange : RawChange :=
  mkChange ["languageSet"] Modified
    (Some (VArr [VStr "en"; VStr "fr"])) (Some (VArr [VStr "fr"; VStr "de"])).

Definition endedChange : RawChange :=
  mkChange ["ended"] Modified (Some (VBool false)) (Some (VBool true)).

(** A row whose parent cannot be fetched. *)
Definition orphanRow : EntityRevision :=
  {| parent := rejectedAt 3 (StoreError "parent not loaded");
     diff := fun _ => resolvedAt 1 [endDateChange];
     related_entity := someAuthor |}.

(** The query for works fails early, the one for authors late. *)
Definition raceStore : Orm :=
  {| fetch := fetch store;
     fetchAll := fun k id =>
       match k with
       | Author => rejectedAt 7 (StoreError "author query failed")
       | Work => rejectedAt 2 (StoreError "work query failed")
       | _ => resolvedAt 4 []
       end |}.

(** Revision 42 touches two authors; the parent of the second cannot be
    fetched. *)
Definition orphanStore : Orm :=
  {| fetch := fetch store;
     fetchAll := fun k id =>
       match k with
       | Author => resolvedAt 3 [authorRow; orphanRow]
       | _ => resolvedAt 4 []
       end |}.

(** The base revision cannot be fetched at all. *)
Definition downStore : Orm :=
  {| fetch := fun _ => rejectedAt 1 (StoreError "revision query failed");
     fetchAll := fetchAll store |}.

End Cases.

(** ** Tactics *)

Ltac split_bools H :=
  repeat match type of H with
         | (_ && _)%bool = true =>
             let H1 := fresh H in
             apply andb_true_iff in H; destruct H as [H1 H];
             try split_bools H1
         | negb _ = true => apply negb_true_iff in H
         | (_ || _)%bool = false =>
             let H1 := fresh H in
             apply orb_false_iff in H; destruct H as [H1 H];
             try split_bools H1
         end.

Ltac pick_field H :=
  simpl in H;
  repeat match type of H with
         | _ \/ _ => destruct H as [H|H]
         | False => destruct H
         end;
  injection H; intros; subst; clear H.

(** Decide the tests of a chain one after the other; a test that holds
    settles the goal. *)
Ltac case_tests :=
  repeat (match goal with
          | |- context [Lodash.isEqual (path ?c) ?q] =>
              destruct (Lodash.isEqual (path c) q)
          | |- context [changed ?s ?c] => destruct (changed s c)
          end;
          simpl; try (intros; reflexivity); try (intros; discriminate)).

(** The same with the path known in the branch where a test holds; [sound]
    turns a successful test into an equation. *)
Ltac walk_chain sound :=
  repeat match goal with
         | |- context [Lodash.isEqual (path ?c) ?q] =>
             let E := fresh "E" in
             destruct (Lodash.isEqual (path c) q) eqn:E;
             [ apply sound in E; try rewrite E in *; simpl in *
             | simpl ]
         end.

(** ** Paths *)

Lemma isEqual_eq (p q : list string) : Lodash.isEqual p q = true <-> p = q.
Proof.
  revert q; induction p as [|x p IH]; intros [|y q]; simpl;
    try (split; [discriminate | discriminate]); try tauto.
  rewrite andb_true_iff, String.eqb_eq, IH.
  split; [intros [-> ->]; reflexivity | intros E; inversion E; auto].
Qed.

Lemma isEqual_refl (p : list string) : Lodash.isEqual p p = true.
Proof. apply isEqual_eq; reflexivity. Qed.

(** Every string the Edition classifier start-cases is split by lodash's
    ASCII splitter. *)
Lemma startCase_fields_ascii :
  forallb (fun s => negb (Lodash.hasUnicodeWord s))
    ["width"; "height"; "depth"; "weight"] = true.
Proof. reflexivity. Qed.

(** Falling through every test. *)
Lemma classifier_unrecognized (F : Type) (bf : BaseFormatter F)
    (ps rs ls : SetFormatter F) (k : EntityKind) (change : RawChange) :
  unrecognized F ps rs ls k change = true ->
  classifier F bf ps rs ls k change = fallThrough F k.
Proof.
  unfold unrecognized; intros H.
  destruct k; simpl in H; split_bools H; simpl;
    [ unfold formatAuthorChange
    | unfold formatEditionChange
    | unfold formatEditionGroupChange
    | unfold formatPublisherChange
    | unfold formatWorkChange ];
    repeat match goal with
           | E : _ = false |- _ => rewrite E; clear E
           end;
    reflexivity.
Qed.

(** A recognized path starts with the name of a recognized field. *)
Lemma recognized_root (k : EntityKind) (p : list string) :
  existsb (Lodash.isEqual p) (recognizedPaths k) = true ->
  In (hd_error p) (map (@hd_error string) (recognizedPaths k)).
Proof.
  generalize (recognizedPaths k) as table.
  induction table as [|q table IH]; simpl; [discriminate|].
  intros H; apply orb_true_iff in H; destruct H as [H|H].
  - apply isEqual_eq in H; subst q; left; reflexivity.
  - right; apply IH; exact H.
Qed.

(** The reading of section 8: a root outside the table is enough. *)
Lemma unknown_root_unrecognized (F : Type) (ps rs ls : SetFormatter F)
    (k : EntityKind) (change : RawChange) :
  ~ In (hd_error (path change)) (map (@hd_error string) (recognizedPaths k)) ->
  forallb (fun s => negb (changed s change)) (setFields F ps rs ls k) = true ->
  unrecognized F ps rs ls k change = true.
Proof.
  intros Hroot Hsets; unfold unrecognized; rewrite Hsets, andb_true_r.
  apply negb_true_iff.
  destruct (existsb (Lodash.isEqual (path change)) (recognizedPaths k)) eqn:E;
    [|reflexivity].
  contradiction Hroot; apply recognized_root; exact E.
Qed.

(** ** Promise combinators *)

Lemma outcome_thenP {A B : Type} (p : Promise A) (f : A -> Promise B) :
  outcome (Bluebird.thenP p f)
  = match outcome p with
    | Resolved v => outcome (f v)
    | Rejected e => Rejected e
    end.
Proof. unfold Bluebird.thenP; destruct (outcome p); reflexivity. Qed.

Lemma outcome_thenSync {A B : Type} (p : Promise A) (f : A -> Outcome B) :
  outcome (Bluebird.thenSync p f)
  = match outcome p with
    | Resolved v => f v
    | Rejected e => Rejected e
    end.
Proof. unfold Bluebird.thenSync; destruct (outcome p); reflexivity. Qed.

Lemma both_resolved {A B : Type} (p : Promise A) (q : Promise B) a b :
  outcome p = Resolved a -> outcome q = Resolved b ->
  outcome (Bluebird.both p q) = Resolved (a, b).
Proof. unfold Bluebird.both; intros -> ->; reflexivity. Qed.

Lemma both_rejects_l {A B : Type} (p : Promise A) (q : Promise B) e :
  outcome p = Rejected e ->
  exists e', outcome (Bluebird.both p q) = Rejected e'.
Proof.
  unfold Bluebird.both; intros ->.
  destruct (outcome q); [eexists; reflexivity|].
  destruct (settledAt q <? settledAt p)%nat; eexists; reflexivity.
Qed.

Lemma both_rejects_r {A B : Type} (p : Promise A) (q : Promise B) e :
  outcome q = Rejected e ->
  exists e', outcome (Bluebird.both p q) = Rejected e'.
Proof.
  unfold Bluebird.both; intros ->.
  destruct (outcome p); [eexists; reflexivity|].
  destruct (settledAt q <? settledAt p)%nat; eexists; reflexivity.
Qed.

(** A rejection of the pair is the rejection of one of the two. *)
Lemma both_rejection_source {A B : Type} (p : Promise A) (q : Promise B) e :
  outcome (Bluebird.both p q) = Rejected e ->
  outcome p = Rejected e \/ outcome q = Rejected e.
Proof.
  unfold Bluebird.both.
  destruct (outcome p), (outcome q); simpl; try discriminate;
    try (intros E; injection E as ->; auto; fail).
  destruct (settledAt q <? settledAt p)%nat; simpl;
    intros E; injection E as ->; auto.
Qed.

(** Of two rejections the earlier one is reported. *)
Lemma both_earliest {A B : Type} (p : Promise A) (q : Promise B) e e' :
  outcome p = Rejected e -> outcome q = Rejected e' ->
  outcome (Bluebird.both p q)
  = Rejected (if (settledAt q <? settledAt p)%nat then e' else e).
Proof.
  unfold Bluebird.both; intros -> ->.
  destruct (settledAt q <? settledAt p)%nat; reflexivity.
Qed.

Lemma all_nil {A : Type} : outcome (@Bluebird.all A []) = Resolved [].
Proof. reflexivity. Qed.

Lemma all_cons_resolved {A : Type} (p : Promise A) ps v vs :
  outcome p = Resolved v -> outcome (Bluebird.all ps) = Resolved vs ->
  outcome (Bluebird.all (p :: ps)) = Resolved (v :: vs).
Proof.
  intros Hp Hps; simpl.
  rewrite outcome_thenSync, (both_resolved _ _ _ _ Hp Hps); reflexivity.
Qed.

Lemma all_rejects {A : Type} (ps : list (Promise A)) p e :
  In p ps -> outcome p = Rejected e ->
  exists e', outcome (Bluebird.all ps) = Rejected e'.
Proof.
  induction ps as [|q ps IH]; intros Hin Hp; [destruct Hin|].
  simpl; rewrite outcome_thenSync.
  destruct Hin as [-> | Hin].
  - destruct (both_rejects_l p (Bluebird.all ps) e Hp) as [e' ->].
    exists e'; reflexivity.
  - destruct (IH Hin Hp) as [e1 H1].
    destruct (both_rejects_r q (Bluebird.all ps) e1 H1) as [e' ->].
    exists e'; reflexivity.
Qed.

(** ** Facts about the route *)

(** One row whose parent cannot be fetched rejects the whole resolution. *)
Lemma diffRevisionsWithParents_rejects (rows : list EntityRevision) row e :
  In row rows -> outcome (parent row) = Rejected e ->
  exists e', outcome (diffRevisionsWithParents rows) = Rejected e'.
Proof.
  intros Hin Hp; unfold diffRevisionsWithParents.
  eapply all_rejects.
  - apply in_map; exact Hin.
  - rewrite outcome_thenP, Hp; reflexivity.
Qed.

Lemma diffRevisionsWithParents_nil :
  outcome (diffRevisionsWithParents []) = Resolved [].
Proof. reflexivity. Qed.

Lemma diffRevisionsWithParents_one (row : EntityRevision) p cs :
  outcome (parent row) = Resolved p ->
  outcome (diff row p) = Resolved cs ->
  outcome (diffRevisionsWithParents [row])
  = Resolved [mkDiff cs (related_entity row)].
Proof.
  intros Hp Hd; unfold diffRevisionsWithParents; simpl map.
  apply all_cons_resolved; [|apply all_nil].
  rewrite outcome_thenP, Hp, outcome_thenSync, Hd; reflexivity.
Qed.

Lemma both_resolved_inv {A B : Type} (p : Promise A) (q : Promise B) a b :
  outcome (Bluebird.both p q) = Resolved (a, b) ->
  outcome p = Resolved a /\ outcome q = Resolved b.
Proof.
  unfold Bluebird.both.
  destruct (outcome p), (outcome q); simpl; try discriminate.
  - intros E; injection E as -> ->; auto.
  - destruct (settledAt q <? settledAt p)%nat; discriminate.
Qed.

Lemma createRevision_rows (orm : Orm) (k : EntityKind) (id : string) rows :
  outcome (fetchAll orm k id) = Resolved rows ->
  outcome (_createRevision orm k id)
  = outcome (diffRevisionsWithParents rows).
Proof.
  intros H; unfold _createRevision; rewrite outcome_thenP, H; reflexivity.
Qed.

Section RouteFacts.

Variables F B : Type.
Variable bf : BaseFormatter F.
Variables ps rs ls : SetFormatter F.
Variable ef : EntityFormatter F B.
Variable orm : Orm.
Variable id : string.

Lemma router_get_unfold :
  router_get F B bf ps rs ls ef orm id
  = match outcome (fanIn orm id) with
    | Resolved (r, (a, (e, (w, (p, g))))) =>
        match joined F B bf ps rs ls ef r a e w p g with
        | Resolved page => Send page
        | Rejected err => Next err
        end
    | Rejected err => Next err
    end.
Proof.
  unfold router_get, Bluebird.join; rewrite outcome_thenSync.
  fold (fanIn orm id).
  destruct (outcome (fanIn orm id)) as [[r [a [e [w [p g]]]]]|err];
    reflexivity.
Qed.

Lemma fanIn_resolved r a e w p g :
  outcome (fetch orm id) = Resolved r ->
  outcome (_createRevision orm Author id) = Resolved a ->
  outcome (_createRevision orm Edition id) = Resolved e ->
  outcome (_createRevision orm Work id) = Resolved w ->
  outcome (_createRevision orm Publisher id) = Resolved p ->
  outcome (_createRevision orm EditionGroup id) = Resolved g ->
  outcome (fanIn orm id) = Resolved (r, (a, (e, (w, (p, g))))).
Proof.
  intros Hr Ha He Hw Hp Hg; unfold fanIn.
  repeat (apply both_resolved; [assumption|]); assumption.
Qed.

Lemma fanIn_rejects (k : EntityKind) err :
  outcome (_createRevision orm k id) = Rejected err ->
  exists err', outcome (fanIn orm id) = Rejected err'.
Proof.
  intros H; unfold fanIn.
  destruct k;
    repeat first
      [ eapply both_rejects_l; eassumption
      | eapply both_rejects_r; eassumption
      | match goal with
        | |- exists _, outcome (Bluebird.both _ ?q) = _ =>
            let E := fresh in
            assert (E : exists x, outcome q = Rejected x);
            [ | destruct E as [? E]; eapply both_rejects_r; exact E ]
        end ].
Qed.

Lemma fanIn_rejection_source err :
  outcome (fanIn orm id) = Rejected err ->
  outcome (fetch orm id) = Rejected err
  \/ exists k, outcome (_createRevision orm k id) = Rejected err.
Proof.
  unfold fanIn; intros H.
  repeat (apply both_rejection_source in H; destruct H as [H|H];
          [ solve [auto | right; eexists; exact H] | ]).
  right; eexists; exact H.
Qed.

Lemma fanIn_revision r rest :
  outcome (fanIn orm id) = Resolved (r, rest) ->
  outcome (fetch orm id) = Resolved r.
Proof.
  unfold fanIn; intros H; apply both_resolved_inv in H; tauto.
Qed.

End RouteFacts.

(** ** Classification *)

(** C1, as amended.  For every entity kind and every change that matches
    none of the kind's recognized fields, the classifier formats nothing and
    returns an empty result: [null] for Author, Edition, Publisher and Work,
    the empty array for EditionGroup. *)
Theorem unrecognized_change_falls_through (F : Type) (bf : BaseFormatter F)
    (ps rs ls : SetFormatter F) (k : EntityKind) (change : RawChange) :
  unrecognized F ps rs ls k change = true ->
  classifier F bf ps rs ls k change
  = match k with
    | EditionGroup => EmptyArray
    | _ => Null
    end.
Proof.
  intros H; rewrite (classifier_unrecognized F bf ps rs ls k change H).
  destruct k; reflexivity.
Qed.

Lemma unrecognized_change_falls_through_witness :
  Engine.unknown Author Samples.revisionIdChange = true
  /\ Engine.classify SpecModel.labelOf Author Samples.revisionIdChange = Null.
Proof.
  split; [reflexivity|].
  apply (unrecognized_change_falls_through SpecModel.FormattedChange
           (SpecModel.baseFormatter SpecModel.labelOf)
           SpecModel.publisherSetFormatter SpecModel.releaseEventSetFormatter
           SpecModel.languageSetFormatter Author Samples.revisionIdChange).
  reflexivity.
Defined.

(** C1 as stated fails for EditionGroup: on a change to the unrecognized
    field [revisionId] its classifier returns the empty array, not [null]. *)
Lemma editionGroup_returns_empty_array_not_null :
  Engine.unknown EditionGroup Samples.revisionIdChange = true
  /\ Engine.classify SpecModel.labelOf EditionGroup Samples.revisionIdChange
     = EmptyArray
  /\ Engine.classify SpecModel.labelOf EditionGroup Samples.revisionIdChange
     <> Null.
Proof. repeat split; discriminate. Qed.

(** C2 as stated fails: [['beginDate']] and [['beginDate', 'year']] share
    their first segment, yet the Author classifier formats the first and
    returns [null] for the second. *)
Lemma same_first_segment_classified_apart :
  hd_error (path Samples.beginDateChange)
  = hd_error (path Samples.beginDateYearChange)
  /\ Engine.classify SpecModel.labelOf Author Samples.beginDateChange
     = Formatted
         (SpecModel.FieldChange "Begin Date" Modified
            (Some (VStr "1990-01-01")) (Some (VStr "1991-01-01")))
  /\ Engine.classify SpecModel.labelOf Author Samples.beginDateYearChange
     = Null.
Proof. repeat split. Qed.

(** C2, as amended.  Paths are compared whole.  Take a field of kind [k]
    that is recognized by its path, a change [whole] to the field itself and
    a change [under] to a path below it that no set formatter claims.  When
    the path of [under] is one of the [.name] aliases the classifier lists
    (Author [beginArea.name], [endArea.name]; Publisher [area.name]), both
    changes go to the area formatter with one and the same label.  With any
    other trailing segments [whole] is formatted while [under] falls
    through. *)
Theorem trailing_segments_matter_except_listed_aliases
    (F : Type) (bf : BaseFormatter F) (ps rs ls : SetFormatter F)
    (k : EntityKind) (field : string) (rest : list string)
    (whole under : RawChange) :
  In [field] (recognizedPaths k) ->
  path whole = [field] ->
  path under = field :: rest ->
  rest <> [] ->
  forallb (fun s => negb (changed s under)) (setFields F ps rs ls k) = true ->
  if existsb (Lodash.isEqual (path under)) (aliases k) then
    exists label,
      classifier F bf ps rs ls k whole
      = Formatted (formatAreaChange bf whole label)
      /\ classifier F bf ps rs ls k under
         = Formatted (formatAreaChange bf under label)
  else
    isFormatted (classifier F bf ps rs ls k whole) = true
    /\ classifier F bf ps rs ls k under = fallThrough F k.
Proof.
  intros Hin Hw Hu Hrest Hsets.
  destruct rest as [|seg rest]; [contradiction|clear Hrest].
  destruct k; pick_field Hin; simpl in Hsets; split_bools Hsets;
    unfold classifier, formatAuthorChange, formatEditionChange,
      formatEditionGroupChange, formatPublisherChange, formatWorkChange,
      fallThrough;
    rewrite Hw, Hu; simpl;
    repeat match goal with
           | E : changed _ under = false |- _ => rewrite E; clear E
           end;
    rewrite ?andb_false_r; simpl;
    try (split; [|reflexivity]);
    repeat match goal with
           | |- context [changed ?s whole] => destruct (changed s whole)
           end;
    try reflexivity;
    rewrite ?orb_false_r;
    destruct ((seg =? "name") && Lodash.isEqual rest []); simpl;
    try (eexists; split; reflexivity);
    split; reflexivity.
Qed.

Lemma trailing_segments_matter_except_listed_aliases_witness :
  In ["beginArea"] (recognizedPaths Author)
  /\ path Samples.beginAreaChange = ["beginArea"]
  /\ path Samples.beginAreaNameChange = ["beginArea"; "name"]
  /\ ["name"] <> []
  /\ exists label,
       Engine.classify SpecModel.labelOf Author Samples.beginAreaChange
       = Formatted
           (SpecModel.formatAreaChange SpecModel.labelOf
              Samples.beginAreaChange label)
       /\ Engine.classify SpecModel.labelOf Author Samples.beginAreaNameChange
          = Formatted
              (SpecModel.formatAreaChange SpecModel.labelOf
                 Samples.beginAreaNameChange label).
Proof.
  assert (Hin : In ["beginArea"] (recognizedPaths Author))
    by (simpl; auto 10).
  assert (Hrest : ["name"] <> []) by discriminate.
  repeat split; try assumption.
  exact (trailing_segments_matter_except_listed_aliases
           SpecModel.FormattedChange
           (SpecModel.baseFormatter SpecModel.labelOf)
           SpecModel.publisherSetFormatter SpecModel.releaseEventSetFormatter
           SpecModel.languageSetFormatter
           Author "beginArea" ["name"]
           Samples.beginAreaChange Samples.beginAreaNameChange
           Hin eq_refl eq_refl Hrest eq_refl).
Defined.



(** C7.  For the Edition classifier, a change whose path is exactly
    [['width']], [['height']], [['depth']] or [['weight']] and that no set
    formatter claims is formatted as a scalar change labelled with the
    start-cased field name (Width, Height, Depth, Weight); a change whose
    path is exactly [['pages']] is formatted as a scalar change labelled
    'Page Count'. *)
Theorem edition_dimensions_and_pages (F : Type) (bf : BaseFormatter F)
    (ps rs ls : SetFormatter F) (field label : string) (change : RawChange) :
  In (field, label)
     [ ("width", "Width"); ("height", "Height"); ("depth", "Depth");
       ("weight", "Weight"); ("pages", "Page Count") ] ->
  path change = [field] ->
  changed ps change = false ->
  changed rs change = false ->
  changed ls change = false ->
  formatEditionChange F bf ps rs ls change
  = Formatted (formatScalarChange bf change label)
  /\ (field <> "pages" -> label = Lodash.startCase field).
Proof.
  intros Hin Hp Hps Hrs Hls.
  unfold formatEditionChange; rewrite Hp, Hps, Hrs, Hls.
  pick_field Hin; split; try reflexivity; intros Hne;
    try reflexivity; contradiction Hne; reflexivity.
Qed.

Lemma edition_dimensions_and_pages_witness :
  In ("width", "Width")
     [ ("width", "Width"); ("height", "Height"); ("depth", "Depth");
       ("weight", "Weight"); ("pages", "Page Count") ]
  /\ Engine.classify SpecModel.labelOf Edition Samples.widthChange
     = Formatted
         (SpecModel.FieldChange "Width" Modified
            (Some (VNum 120)) (Some (VNum 125))).
Proof.
  assert (Hin : In ("width", "Width")
                   [ ("width", "Width"); ("height", "Height");
                     ("depth", "Depth"); ("weight", "Weight");
                     ("pages", "Page Count") ])
    by (left; reflexivity).
  split; [exact Hin|].
  exact (proj1
           (edition_dimensions_and_pages SpecModel.FormattedChange
              (SpecModel.baseFormatter SpecModel.labelOf)
              SpecModel.publisherSetFormatter
              SpecModel.releaseEventSetFormatter
              SpecModel.languageSetFormatter
              "width" "Width" Samples.widthChange
              Hin eq_refl eq_refl eq_refl eq_refl)).
Defined.

(** C8.  For the Publisher classifier, a change with path [['area']] or
    [['area', 'name']] is handed to the area formatter without a label, and
    the area formatter then renders it under its default label 'Area'. *)
Theorem publisher_area_default_label
    (resolveName : value -> option string) (change : RawChange) :
  path change = ["area"] \/ path change = ["area"; "name"] ->
  (forall (F : Type) (bf : BaseFormatter F),
      formatPublisherChange F bf change
      = Formatted (formatAreaChange bf change None))
  /\ exists f,
       Engine.classify resolveName Publisher change = Formatted f
       /\ f = SpecModel.formatAreaChange resolveName change None
       /\ SpecModel.label f = "Area".
Proof.
  intros Hp.
  assert (H : forall (F : Type) (bf : BaseFormatter F),
             formatPublisherChange F bf change
             = Formatted (formatAreaChange bf change None)).
  { intros F bf; unfold formatPublisherChange.
    destruct Hp as [-> | ->]; reflexivity. }
  split; [exact H|].
  eexists; split; [apply H|]; split; reflexivity.
Qed.

Lemma publisher_area_default_label_witness :
  Engine.classify SpecModel.labelOf Publisher Samples.areaNameChange
  = Formatted
      (SpecModel.FieldChange "Area" Modified
         (Some (VStr "Paris")) (Some (VStr "Lyon"))).
Proof.
  exact (proj1
           (publisher_area_default_label SpecModel.labelOf
              Samples.areaNameChange (or_intror eq_refl))
           SpecModel.FormattedChange
           (SpecModel.baseFormatter SpecModel.labelOf)).
Defined.

(** C10.  A change with path exactly [['type']] is formatted as a type
    change, labelled 'Author Type' by the Author classifier and 'Publisher
    Type' by the Publisher classifier. *)
Theorem type_change_labels (F : Type) (bf : BaseFormatter F)
    (change : RawChange) :
  path change = ["type"] ->
  formatAuthorChange F bf change
  = Formatted (formatTypeChange bf change "Author Type")
  /\ formatPublisherChange F bf change
     = Formatted (formatTypeChange bf change "Publisher Type").
Proof.
  intros Hp; unfold formatAuthorChange, formatPublisherChange.
  rewrite Hp; split; reflexivity.
Qed.

Lemma type_change_labels_witness :
  Engine.classify SpecModel.labelOf Author Samples.typeChange
  = Formatted
      (SpecModel.FieldChange "Author Type" Modified
         (Some (VStr "Person")) (Some (VStr "Group")))
  /\ Engine.classify SpecModel.labelOf Publisher Samples.typeChange
     = Formatted
         (SpecModel.FieldChange "Publisher Type" Modified
            (Some (VStr "Person")) (Some (VStr "Group"))).
Proof.
  exact (type_change_labels SpecModel.FormattedChange
           (SpecModel.baseFormatter SpecModel.labelOf)
           Samples.typeChange eq_refl).
Defined.

(** ** The route *)

(** C3, as amended.  When the base revision of the requested id has no
    record, the request fails and nothing is sent: no block of any entity
    kind reaches the caller.  The failure is NotFound whenever the five
    per-kind resolutions succeed. *)
Theorem missing_revision_sends_nothing (F B : Type) (bf : BaseFormatter F)
    (ps rs ls : SetFormatter F) (ef : EntityFormatter F B)
    (orm : Orm) (id : string) :
  outcome (fetch orm id) = Resolved None ->
  (exists err, router_get F B bf ps rs ls ef orm id = Next err)
  /\ ((forall k, exists d, outcome (_createRevision orm k id) = Resolved d) ->
      router_get F B bf ps rs ls ef orm id = Next NotFoundError).
Proof.
  intros Hrev; split.
  - rewrite router_get_unfold.
    match goal with
    | |- context [outcome ?j] => destruct (outcome j) as [[r rest]|err] eqn:E
    end; [|eexists; reflexivity].
    apply fanIn_revision in E; rewrite Hrev in E; injection E as <-.
    destruct rest as [a [e [w [p g]]]]; eexists; reflexivity.
  - intros Hall.
    destruct (Hall Author) as [a Ha], (Hall Edition) as [e He],
      (Hall Work) as [w Hw], (Hall Publisher) as [p Hp],
      (Hall EditionGroup) as [g Hg].
    rewrite router_get_unfold,
      (fanIn_resolved orm id None a e w p g Hrev Ha He Hw Hp Hg).
    reflexivity.
Qed.

Lemma missing_revision_sends_nothing_witness :
  outcome (fetch Samples.store "999") = Resolved None
  /\ Engine.getRevisionDiff SpecModel.labelOf Samples.store "999"
     = Next NotFoundError.
Proof.
  split; [reflexivity|].
  apply (missing_revision_sends_nothing
           SpecModel.FormattedChange SpecModel.EntityDiffBlock
           (SpecModel.baseFormatter SpecModel.labelOf)
           SpecModel.publisherSetFormatter SpecModel.releaseEventSetFormatter
           SpecModel.languageSetFormatter SpecModel.entityFormatter
           Samples.store "999" eq_refl).
  intros k; destruct k; eexists; reflexivity.
Defined.

(** C3 as stated fails: revision 999 has no record and the query for author
    revisions is rejected; the caller is handed the error of the query, not
    NotFound. *)
Lemma missing_revision_reports_branch_error :
  outcome (fetch Samples.failingStore "999") = Resolved None
  /\ Engine.getRevisionDiff SpecModel.labelOf Samples.failingStore "999"
     = Next (StoreError "connection lost")
  /\ Engine.getRevisionDiff SpecModel.labelOf Samples.failingStore "999"
     <> Next NotFoundError.
Proof. repeat split; discriminate. Qed.

(** C4.  Whenever the revision exists and the five per-kind resolutions
    succeed, the diffs that are sent are the blocks of Author, Edition,
    EditionGroup, Publisher and Work, concatenated in this order.  The
    instants the promises settle at are arbitrary. *)
Theorem diffs_concatenated_in_kind_order (F B : Type) (bf : BaseFormatter F)
    (ps rs ls : SetFormatter F) (ef : EntityFormatter F B)
    (orm : Orm) (id : string) (rev : Revision)
    (authorDiffs editionDiffs editionGroupDiffs publisherDiffs
       workDiffs : list Diff) :
  outcome (fetch orm id) = Resolved (Some rev) ->
  outcome (_createRevision orm Author id) = Resolved authorDiffs ->
  outcome (_createRevision orm Edition id) = Resolved editionDiffs ->
  outcome (_createRevision orm EditionGroup id) = Resolved editionGroupDiffs ->
  outcome (_createRevision orm Publisher id) = Resolved publisherDiffs ->
  outcome (_createRevision orm Work id) = Resolved workDiffs ->
  router_get F B bf ps rs ls ef orm id
  = Send
      (mkPage
         (mkProps
            (formatEntityDiffs ef authorDiffs "Author"
               (formatAuthorChange F bf)
             ++ formatEntityDiffs ef editionDiffs "Edition"
                  (formatEditionChange F bf ps rs ls)
             ++ formatEntityDiffs ef editionGroupDiffs "EditionGroup"
                  (formatEditionGroupChange F bf)
             ++ formatEntityDiffs ef publisherDiffs "Publisher"
                  (formatPublisherChange F bf)
             ++ formatEntityDiffs ef workDiffs "Work"
                  (formatWorkChange F bf ls))
            (toJSON rev) "RevisionPage")
         "/js/revision.js").
Proof.
  intros Hr Ha He Hg Hp Hw.
  rewrite router_get_unfold,
    (fanIn_resolved orm id (Some rev) _ _ _ _ _ Hr Ha He Hw Hp Hg).
  unfold joined, Lodash.concat; simpl; rewrite app_nil_r; reflexivity.
Qed.

Lemma diffs_concatenated_in_kind_order_witness :
  outcome (fetch Samples.busyStore "42") = Resolved (Some Samples.revision42)
  /\ (settledAt (_createRevision Samples.busyStore Work "42")
      < settledAt (_createRevision Samples.busyStore Author "42"))%nat
  /\ Engine.getRevisionDiff SpecModel.labelOf Samples.busyStore "42"
     = Send
         (mkPage
            (mkProps
               [ SpecModel.mkBlock "Author" Samples.someAuthor
                   [ SpecModel.FieldChange "End Date" Modified
                       (Some (VStr "2001-01-01"))
                       (Some (VStr "2002-02-02")) ];
                 SpecModel.mkBlock "Work" Samples.someWork
                   [ SpecModel.FieldChange "Work Type" Modified
                       (Some (VStr "Person")) (Some (VStr "Group")) ] ]
               (VObj [("id", VNum 42)]) "RevisionPage")
            "/js/revision.js").
Proof.
  split; [reflexivity|].
  split; [vm_compute; lia|].
  exact (diffs_concatenated_in_kind_order
           SpecModel.FormattedChange SpecModel.EntityDiffBlock
           (SpecModel.baseFormatter SpecModel.labelOf)
           SpecModel.publisherSetFormatter
           SpecModel.releaseEventSetFormatter
           SpecModel.languageSetFormatter SpecModel.entityFormatter
           Samples.busyStore "42" Samples.revision42
           [mkDiff [Samples.endDateChange] Samples.someAuthor] [] [] []
           [mkDiff [Samples.typeChange; Samples.revisionIdChange]
              Samples.someWork]
           eq_refl eq_refl eq_refl eq_refl eq_refl eq_refl).
Defined.

(** C6.  A revision exists; its only per-kind row is an Author revision
    whose diff against its parent is the single change
    [{path: ['endDate'], kind: modified, lhs: '2001-01-01', rhs:
    '2002-02-02'}].  Then exactly one block is sent, of entity type Author,
    with the single formatted change labelled 'End Date', of kind modified,
    whose old and new values are the two dates unchanged. *)
Theorem end_date_change_end_to_end
    (resolveName : value -> option string) (orm : Orm) (id : string)
    (rev : Revision) (row : EntityRevision) (before : option value) :
  outcome (fetch orm id) = Resolved (Some rev) ->
  outcome (fetchAll orm Author id) = Resolved [row] ->
  outcome (parent row) = Resolved before ->
  outcome (diff row before)
  = Resolved
      [mkChange ["endDate"] Modified
         (Some (VStr "2001-01-01")) (Some (VStr "2002-02-02"))] ->
  outcome (fetchAll orm Edition id) = Resolved [] ->
  outcome (fetchAll orm EditionGroup id) = Resolved [] ->
  outcome (fetchAll orm Publisher id) = Resolved [] ->
  outcome (fetchAll orm Work id) = Resolved [] ->
  exists page,
    Engine.getRevisionDiff resolveName orm id = Send page
    /\ diffs (props page)
       = [ SpecModel.mkBlock "Author" (related_entity row)
             [ SpecModel.FieldChange "End Date" Modified
                 (Some (VStr "2001-01-01")) (Some (VStr "2002-02-02")) ] ].
Proof.
  intros Hr Ha Hp Hd He Hg Hpu Hw.
  unfold Engine.getRevisionDiff.
  rewrite router_get_unfold.
  erewrite fanIn_resolved;
    [ | exact Hr
      | rewrite (createRevision_rows _ _ _ _ Ha);
        exact (diffRevisionsWithParents_one row before _ Hp Hd)
      | rewrite (createRevision_rows _ _ _ _ He); reflexivity
      | rewrite (createRevision_rows _ _ _ _ Hw); reflexivity
      | rewrite (createRevision_rows _ _ _ _ Hpu); reflexivity
      | rewrite (createRevision_rows _ _ _ _ Hg); reflexivity ].
  eexists; split; reflexivity.
Qed.

Lemma end_date_change_end_to_end_witness :
  outcome (fetch Samples.store "42") = Resolved (Some Samples.revision42)
  /\ outcome (fetchAll Samples.store Author "42")
     = Resolved [Samples.authorRow]
  /\ exists page,
       Engine.getRevisionDiff SpecModel.labelOf Samples.store "42" = Send page
       /\ diffs (props page)
          = [ SpecModel.mkBlock "Author" Samples.someAuthor
                [ SpecModel.FieldChange "End Date" Modified
                    (Some (VStr "2001-01-01"))
                    (Some (VStr "2002-02-02")) ] ].
Proof.
  split; [reflexivity|].
  split; [reflexivity|].
  exact (end_date_change_end_to_end SpecModel.labelOf Samples.store "42"
           Samples.revision42 Samples.authorRow
           (Some (VObj [("endDate", VStr "2001-01-01")]))
           eq_refl eq_refl eq_refl eq_refl eq_refl eq_refl eq_refl eq_refl).
Defined.

(** C9.  When the resolution of any one entity kind is rejected, nothing is
    sent: the request fails with the rejection of one of the six promises
    the handler waits for, and with the rejection of that very kind when no
    other promise is rejected. *)
Theorem branch_failure_fails_the_request (F B : Type) (bf : BaseFormatter F)
    (ps rs ls : SetFormatter F) (ef : EntityFormatter F B)
    (orm : Orm) (id : string) (k : EntityKind) (err : Error) :
  outcome (_createRevision orm k id) = Rejected err ->
  exists err',
    router_get F B bf ps rs ls ef orm id = Next err'
    /\ (outcome (fetch orm id) = Rejected err'
        \/ exists k', outcome (_createRevision orm k' id) = Rejected err')
    /\ ((forall e, outcome (fetch orm id) <> Rejected e) ->
        (forall k' e, k' <> k ->
                      outcome (_createRevision orm k' id) <> Rejected e) ->
        err' = err).
Proof.
  intros Hk.
  destruct (fanIn_rejects orm id k err Hk) as [err' Hj].
  pose proof (fanIn_rejection_source orm id err' Hj) as Hsrc.
  exists err'; split; [rewrite router_get_unfold, Hj; reflexivity|].
  split; [exact Hsrc|].
  intros Hrev Hothers.
  destruct Hsrc as [Hf | [k' Hk']]; [exfalso; exact (Hrev _ Hf)|].
  assert (Hdec : k' = k \/ k' <> k)
    by (destruct k, k'; (left; reflexivity) || (right; discriminate)).
  destruct Hdec as [-> | Hne].
  - rewrite Hk in Hk'; injection Hk' as <-; reflexivity.
  - exfalso; exact (Hothers _ _ Hne Hk').
Qed.

Lemma branch_failure_fails_the_request_witness :
  outcome (_createRevision Samples.failingStore Author "42")
  = Rejected (StoreError "connection lost")
  /\ exists err',
       Engine.getRevisionDiff SpecModel.labelOf Samples.failingStore "42"
       = Next err'
       /\ (outcome (fetch Samples.failingStore "42") = Rejected err'
           \/ exists k',
                outcome (_createRevision Samples.failingStore k' "42")
                = Rejected err').
Proof.
  split; [reflexivity|].
  destruct (branch_failure_fails_the_request
              SpecModel.FormattedChange SpecModel.EntityDiffBlock
              (SpecModel.baseFormatter SpecModel.labelOf)
              SpecModel.publisherSetFormatter
              SpecModel.releaseEventSetFormatter
              SpecModel.languageSetFormatter SpecModel.entityFormatter
              Samples.failingStore "42" Author
              (StoreError "connection lost") eq_refl)
    as [err' [Hnext [Hsrc _]]].
  exists err'; split; [exact Hnext | exact Hsrc].
Defined.

(** ** More on classification *)

Lemma recognized_is_formatted (F : Type) (bf : BaseFormatter F)
    (ps rs ls : SetFormatter F) (k : EntityKind) (change : RawChange) :
  unrecognized F ps rs ls k change = false ->
  isFormatted (classifier F bf ps rs ls k change) = true.
Proof.
  unfold unrecognized.
  destruct k; simpl;
    unfold formatAuthorChange, formatEditionChange, formatEditionGroupChange,
      formatPublisherChange, formatWorkChange;
    case_tests.
Qed.

(** X1.  A classifier formats a change exactly when the change matches one
    of the recognized fields of its kind: no recognized change is dropped
    and no unrecognized one is reported. *)
Theorem formatted_iff_recognized (F : Type) (bf : BaseFormatter F)
    (ps rs ls : SetFormatter F) (k : EntityKind) (change : RawChange) :
  isFormatted (classifier F bf ps rs ls k change)
  = negb (unrecognized F ps rs ls k change).
Proof.
  destruct (unrecognized F ps rs ls k change) eqn:E.
  - rewrite (classifier_unrecognized F bf ps rs ls k change E).
    destruct k; reflexivity.
  - apply recognized_is_formatted; exact E.
Qed.

Lemma lookup_In (p : list string) (d : Descriptor) table :
  lookup p table = Some d -> In (p, d) table.
Proof.
  induction table as [|[q d'] table IH]; simpl; [discriminate|].
  destruct (Lodash.isEqual p q) eqn:E.
  - intros H; injection H as ->; apply isEqual_eq in E; subst q; auto.
  - auto.
Qed.

Lemma In_lookup (p : list string) (d : Descriptor) table :
  NoDup (map fst table) -> In (p, d) table -> lookup p table = Some d.
Proof.
  induction table as [|[q d'] table IH]; simpl; [intros _ []|].
  intros Hnd Hin; inversion Hnd as [|? ? Hq Hnd']; subst.
  destruct (Lodash.isEqual p q) eqn:E.
  - apply isEqual_eq in E; subst q.
    destruct Hin as [Hin|Hin]; [injection Hin as ->; reflexivity|].
    contradiction Hq; apply (in_map fst) in Hin; exact Hin.
  - destruct Hin as [Hin|Hin]; [|auto].
    injection Hin as -> ->; rewrite isEqual_refl in E; discriminate.
Qed.

(** With pairwise distinct paths the order of the entries is immaterial. *)
Lemma lookup_permutation (p : list string) table table' :
  NoDup (map fst table) -> Permutation table table' ->
  lookup p table = lookup p table'.
Proof.
  intros Hnd Hperm.
  assert (Hnd' : NoDup (map fst table'))
    by (eapply Permutation_NoDup; [apply Permutation_map; exact Hperm|exact Hnd]).
  destruct (lookup p table) as [d|] eqn:E.
  - symmetry; apply In_lookup; [exact Hnd'|].
    eapply Permutation_in; [exact Hperm|apply lookup_In; exact E].
  - destruct (lookup p table') as [d|] eqn:E'; [|reflexivity].
    apply lookup_In in E'.
    apply (Permutation_in _ (Permutation_sym Hperm)) in E'.
    rewrite (In_lookup _ _ _ Hnd E') in E; discriminate.
Qed.

Lemma pathTable_NoDup (k : EntityKind) : NoDup (map fst (pathTable k)).
Proof.
  destruct k; simpl;
    repeat (constructor; [simpl; intuition discriminate|]); constructor.
Qed.

Lemma pathTable_paths (k : EntityKind) :
  map fst (pathTable k) = recognizedPaths k.
Proof. destruct k; reflexivity. Qed.

(** The chain of a kind, for a change no set formatter claims. *)
Lemma chain_is_lookup (F : Type) (bf : BaseFormatter F)
    (ps rs ls : SetFormatter F) (k : EntityKind) (change : RawChange) :
  find (fun s => changed s change) (setFields F ps rs ls k) = None
  \/ (k = Edition /\ path change = ["editionGroupBbid"]) ->
  classifier F bf ps rs ls k change
  = match lookup (path change) (pathTable k) with
    | Some d => Formatted (describe bf d change)
    | None => fallThrough F k
    end.
Proof.
  intros [H | [-> Hp]].
  - destruct k; simpl in H;
      repeat match type of H with
             | (if changed ?s ?c then _ else _) = None =>
                 destruct (changed s c) eqn:?; [discriminate|]
             end;
      unfold classifier, formatAuthorChange, formatEditionChange,
        formatEditionGroupChange, formatPublisherChange, formatWorkChange;
      repeat match goal with
             | E : changed _ _ = false |- _ => rewrite E; clear E
             end;
      simpl; walk_chain isEqual_eq; reflexivity.
  - unfold classifier, formatEditionChange; rewrite Hp; reflexivity.
Qed.

(** X2.  For a change no set formatter claims (and for the Edition path
    [['editionGroupBbid']] in any case) a classifier is a table lookup on
    the whole path: it hands the change to the formatter and label listed
    for its path, and falls through when the path is not listed.  The paths
    of a table are pairwise distinct, so the order of the tests in the chain
    is immaterial: every rearrangement of the table gives the same
    result. *)
Theorem chain_order_is_immaterial (F : Type) (bf : BaseFormatter F)
    (ps rs ls : SetFormatter F) (k : EntityKind) (change : RawChange)
    (table : list (list string * Descriptor)) :
  Permutation (pathTable k) table ->
  find (fun s => changed s change) (setFields F ps rs ls k) = None
  \/ (k = Edition /\ path change = ["editionGroupBbid"]) ->
  classifier F bf ps rs ls k change
  = match lookup (path change) table with
    | Some d => Formatted (describe bf d change)
    | None => fallThrough F k
    end.
Proof.
  intros Hperm H.
  rewrite <- (lookup_permutation _ _ _ (pathTable_NoDup k) Hperm).
  apply chain_is_lookup; exact H.
Qed.

Lemma chain_order_is_immaterial_witness :
  Permutation (pathTable Publisher) (rev (pathTable Publisher))
  /\ find (fun s => changed s Samples.areaNameChange)
       (setFields SpecModel.FormattedChange
          SpecModel.publisherSetFormatter SpecModel.releaseEventSetFormatter
          SpecModel.languageSetFormatter Publisher) = None
  /\ Engine.classify SpecModel.labelOf Publisher Samples.areaNameChange
     = Formatted
         (SpecModel.FieldChange "Area" Modified
            (Some (VStr "Paris")) (Some (VStr "Lyon"))).
Proof.
  split; [apply Permutation_rev|].
  split; [reflexivity|].
  exact (chain_order_is_immaterial SpecModel.FormattedChange
           (SpecModel.baseFormatter SpecModel.labelOf)
           SpecModel.publisherSetFormatter SpecModel.releaseEventSetFormatter
           SpecModel.languageSetFormatter Publisher Samples.areaNameChange
           (rev (pathTable Publisher))
           (Permutation_rev (pathTable Publisher)) (or_introl eq_refl)).
Defined.

(** X3.  A change that a set formatter claims goes to the first formatter
    that claims it, in the order publisherSet, releaseEventSet, languageSet
    for an Edition and languageSet for a Work, whatever its path is; the one
    exception is the Edition path [['editionGroupBbid']], which is tested
    before the set formatters. *)
Theorem first_claiming_set_formatter_wins (F : Type) (bf : BaseFormatter F)
    (ps rs ls : SetFormatter F) (k : EntityKind) (change : RawChange)
    (s : SetFormatter F) :
  find (fun s => changed s change) (setFields F ps rs ls k) = Some s ->
  (k = Edition -> path change <> ["editionGroupBbid"]) ->
  classifier F bf ps rs ls k change = Formatted (format s change).
Proof.
  intros H Hp.
  destruct k; simpl in H; try discriminate;
    unfold classifier, formatEditionChange, formatWorkChange.
  - destruct (Lodash.isEqual (path change) ["editionGroupBbid"]) eqn:E;
      [apply isEqual_eq in E; contradiction (Hp eq_refl E)|].
    repeat match type of H with
           | (if changed ?t ?c then _ else _) = Some _ =>
               destruct (changed t c);
               [injection H as <-; reflexivity|]
           end.
    discriminate.
  - destruct (changed ls change); [injection H as <-; reflexivity|].
    discriminate.
Qed.

Lemma first_claiming_set_formatter_wins_witness :
  find (fun s => changed s Cases.languageSetChange)
    (setFields SpecModel.FormattedChange
       SpecModel.publisherSetFormatter SpecModel.releaseEventSetFormatter
       SpecModel.languageSetFormatter Edition)
  = Some SpecModel.languageSetFormatter
  /\ Engine.classify SpecModel.labelOf Edition Cases.languageSetChange
     = Formatted
         (SpecModel.SetChange "languageSet" [VStr "de"] [VStr "en"]).
Proof.
  split; [reflexivity|].
  apply (first_claiming_set_formatter_wins SpecModel.FormattedChange
           (SpecModel.baseFormatter SpecModel.labelOf)
           SpecModel.publisherSetFormatter SpecModel.releaseEventSetFormatter
           SpecModel.languageSetFormatter Edition Cases.languageSetChange
           SpecModel.languageSetFormatter eq_refl).
  intros _; discriminate.
Defined.

(** X4.  The Author and the Publisher classifier both format a change only
    for the paths [['beginDate']], [['endDate']], [['ended']] and
    [['type']], and on the first three they return the same result; they
    differ on [['type']] by the label alone. *)
Theorem author_and_publisher_agree (F : Type) (bf : BaseFormatter F)
    (change : RawChange) :
  isFormatted (formatAuthorChange F bf change) = true ->
  isFormatted (formatPublisherChange F bf change) = true ->
  In (path change) [ ["beginDate"]; ["endDate"]; ["ended"]; ["type"] ]
  /\ (path change <> ["type"] ->
      formatAuthorChange F bf change = formatPublisherChange F bf change).
Proof.
  unfold formatAuthorChange, formatPublisherChange.
  walk_chain isEqual_eq;
    intros H1 H2; try discriminate;
    (split; [simpl; auto 10|]);
    intros Hne; try reflexivity; contradiction Hne; reflexivity.
Qed.

Lemma author_and_publisher_agree_witness :
  Engine.classify SpecModel.labelOf Author Cases.endedChange
  = Engine.classify SpecModel.labelOf Publisher Cases.endedChange
  /\ Engine.classify SpecModel.labelOf Author Cases.endedChange
     = Formatted
         (SpecModel.FieldChange "ended" Modified
            (Some (VStr "No")) (Some (VStr "Yes"))).
Proof.
  split; [|reflexivity].
  apply (author_and_publisher_agree SpecModel.FormattedChange
           (SpecModel.baseFormatter SpecModel.labelOf)
           Cases.endedChange eq_refl eq_refl).
  discriminate.
Defined.

(** ** More on the route *)

Lemma both_rejected_resolved {A B : Type} (p : Promise A) (q : Promise B)
    e b :
  outcome p = Rejected e -> outcome q = Resolved b ->
  outcome (Bluebird.both p q) = Rejected e.
Proof. unfold Bluebird.both; intros -> ->; reflexivity. Qed.

Lemma fanIn_resolved_inv (orm : Orm) (id : string) r a e w p g :
  outcome (fanIn orm id) = Resolved (r, (a, (e, (w, (p, g))))) ->
  outcome (fetch orm id) = Resolved r
  /\ outcome (_createRevision orm Author id) = Resolved a
  /\ outcome (_createRevision orm Edition id) = Resolved e
  /\ outcome (_createRevision orm Work id) = Resolved w
  /\ outcome (_createRevision orm Publisher id) = Resolved p
  /\ outcome (_createRevision orm EditionGroup id) = Resolved g.
Proof.
  unfold fanIn; intros H.
  repeat (apply both_resolved_inv in H; destruct H as [? H];
          split; [assumption|]).
  exact H.
Qed.

Lemma summarizes_self {A : Type} (p : Promise A) :
  summarizes p (rejection p).
Proof.
  unfold summarizes; destruct (rejection p) as [|x l] eqn:E; [reflexivity|].
  unfold rejection in E; destruct (outcome p); [discriminate|].
  injection E as <- <-; split; [left; reflexivity|].
  intros y [<- | []]; apply Nat.le_refl.
Qed.

Lemma summarizes_both {A B : Type} (p : Promise A) (q : Promise B) l1 l2 :
  summarizes p l1 -> summarizes q l2 ->
  summarizes (Bluebird.both p q) (l1 ++ l2).
Proof.
  unfold summarizes, rejection, Bluebird.both.
  destruct (outcome p) as [a|e], (outcome q) as [b|e']; simpl.
  - intros -> ->; reflexivity.
  - intros -> H; exact H.
  - intros H ->; rewrite app_nil_r; exact H.
  - intros [Hin1 Hmin1] [Hin2 Hmin2].
    destruct (Nat.ltb_spec (settledAt q) (settledAt p)) as [Hlt|Hle]; simpl;
      (split; [apply in_or_app; auto|]);
      intros y Hy; apply in_app_or in Hy; destruct Hy as [Hy|Hy];
      try (specialize (Hmin1 y Hy)); try (specialize (Hmin2 y Hy));
      simpl in *; lia.
Qed.

Lemma fanIn_summarizes (orm : Orm) (id : string) :
  summarizes (fanIn orm id) (rejections orm id).
Proof.
  unfold fanIn, rejections.
  repeat (apply summarizes_both; [apply summarizes_self|]).
  apply summarizes_self.
Qed.

Lemma rejection_outcome {A : Type} (p : Promise A) x l :
  rejection p = x :: l -> outcome p = Rejected (snd x).
Proof.
  unfold rejection; destruct (outcome p); [discriminate|].
  intros H; injection H as <- _; reflexivity.
Qed.

(** X6.  When the query for the base revision itself is rejected, nothing is
    sent, whatever the five per-kind resolutions do; when these all succeed,
    the caller is handed the rejection of the query. *)
Theorem revision_query_failure_is_fatal (F B : Type) (bf : BaseFormatter F)
    (ps rs ls : SetFormatter F) (ef : EntityFormatter F B)
    (orm : Orm) (id : string) (err : Error) :
  outcome (fetch orm id) = Rejected err ->
  (exists err', router_get F B bf ps rs ls ef orm id = Next err')
  /\ ((forall k, exists d, outcome (_createRevision orm k id) = Resolved d) ->
      router_get F B bf ps rs ls ef orm id = Next err).
Proof.
  intros Hrev; split.
  - destruct (both_rejects_l (fetch orm id)
                (Bluebird.both (_createRevision orm Author id)
                   (Bluebird.both (_createRevision orm Edition id)
                      (Bluebird.both (_createRevision orm Work id)
                         (Bluebird.both (_createRevision orm Publisher id)
                            (_createRevision orm EditionGroup id)))))
                err Hrev) as [err' H].
    exists err'; rewrite router_get_unfold; unfold fanIn; rewrite H.
    reflexivity.
  - intros Hall.
    destruct (Hall Author) as [a Ha], (Hall Edition) as [e He],
      (Hall Work) as [w Hw], (Hall Publisher) as [p Hp],
      (Hall EditionGroup) as [g Hg].
    rewrite router_get_unfold; unfold fanIn.
    erewrite both_rejected_resolved; [reflexivity|exact Hrev|].
    repeat (apply both_resolved; [eassumption|]); eassumption.
Qed.

Lemma revision_query_failure_is_fatal_witness :
  outcome (fetch Cases.downStore "42")
  = Rejected (StoreError "revision query failed")
  /\ Engine.getRevisionDiff SpecModel.labelOf Cases.downStore "42"
     = Next (StoreError "revision query failed").
Proof.
  split; [reflexivity|].
  apply (revision_query_failure_is_fatal
           SpecModel.FormattedChange SpecModel.EntityDiffBlock
           (SpecModel.baseFormatter SpecModel.labelOf)
           SpecModel.publisherSetFormatter SpecModel.releaseEventSetFormatter
           SpecModel.languageSetFormatter SpecModel.entityFormatter
           Cases.downStore "42" (StoreError "revision query failed")
           eq_refl).
  intros k; destruct k; eexists; reflexivity.
Defined.

(** X7.  When at least one of the six promises the handler waits for is
    rejected, the error handed to [next] is the one of a rejection that
    happened no later than any other: the first failure decides. *)
Theorem earliest_rejection_is_reported (F B : Type) (bf : BaseFormatter F)
    (ps rs ls : SetFormatter F) (ef : EntityFormatter F B)
    (orm : Orm) (id : string) :
  rejections orm id <> [] ->
  exists t err,
    earliestIn (t, err) (rejections orm id)
    /\ router_get F B bf ps rs ls ef orm id = Next err.
Proof.
  intros Hne.
  pose proof (fanIn_summarizes orm id) as H; unfold summarizes in H.
  destruct (rejection (fanIn orm id)) as [|[t err] l] eqn:E;
    [contradiction|].
  exists t, err; split; [exact H|].
  rewrite router_get_unfold, (rejection_outcome _ _ _ E); reflexivity.
Qed.

Lemma earliest_rejection_is_reported_witness :
  rejections Cases.raceStore "42"
  = [ (7, StoreError "author query failed");
      (2, StoreError "work query failed") ]
  /\ exists t err,
       earliestIn (t, err) (rejections Cases.raceStore "42")
       /\ Engine.getRevisionDiff SpecModel.labelOf Cases.raceStore "42"
          = Next err.
Proof.
  split; [reflexivity|].
  apply (earliest_rejection_is_reported
           SpecModel.FormattedChange SpecModel.EntityDiffBlock
           (SpecModel.baseFormatter SpecModel.labelOf)
           SpecModel.publisherSetFormatter SpecModel.releaseEventSetFormatter
           SpecModel.languageSetFormatter SpecModel.entityFormatter
           Cases.raceStore "42").
  discriminate.
Defined.

(** X8.  A page is sent only when the revision exists and all five per-kind
    resolutions succeeded, and then it is exactly the page of the blocks in
    kind order, the revision's JSON, the title 'RevisionPage' and the script
    '/js/revision.js'. *)
Theorem page_sent_only_when_all_succeed (F B : Type) (bf : BaseFormatter F)
    (ps rs ls : SetFormatter F) (ef : EntityFormatter F B)
    (orm : Orm) (id : string) (page : Page B) :
  router_get F B bf ps rs ls ef orm id = Send page ->
  exists rev a e g p w,
    outcome (fetch orm id) = Resolved (Some rev)
    /\ outcome (_createRevision orm Author id) = Resolved a
    /\ outcome (_createRevision orm Edition id) = Resolved e
    /\ outcome (_createRevision orm EditionGroup id) = Resolved g
    /\ outcome (_createRevision orm Publisher id) = Resolved p
    /\ outcome (_createRevision orm Work id) = Resolved w
    /\ page
       = mkPage
           (mkProps
              (formatEntityDiffs ef a "Author" (formatAuthorChange F bf)
               ++ formatEntityDiffs ef e "Edition"
                    (formatEditionChange F bf ps rs ls)
               ++ formatEntityDiffs ef g "EditionGroup"
                    (formatEditionGroupChange F bf)
               ++ formatEntityDiffs ef p "Publisher"
                    (formatPublisherChange F bf)
               ++ formatEntityDiffs ef w "Work" (formatWorkChange F bf ls))
              (toJSON rev) "RevisionPage")
           "/js/revision.js".
Proof.
  rewrite router_get_unfold.
  destruct (outcome (fanIn orm id)) as [[r [a [e [w [p g]]]]]|err] eqn:E;
    [|discriminate].
  destruct r as [rev|]; simpl; [|discriminate].
  intros H; injection H as <-.
  apply fanIn_resolved_inv in E.
  destruct E as (Hr & Ha & He & Hw & Hp & Hg).
  exists rev, a, e, g, p, w.
  repeat (split; [assumption|]).
  unfold Lodash.concat; simpl; rewrite app_nil_r; reflexivity.
Qed.

Lemma page_sent_only_when_all_succeed_witness :
  exists page,
    Engine.getRevisionDiff SpecModel.labelOf Samples.store "42" = Send page
    /\ exists rev,
         outcome (fetch Samples.store "42") = Resolved (Some rev)
         /\ title (props page) = "RevisionPage"
         /\ revision (props page) = toJSON rev.
Proof.
  destruct (Engine.getRevisionDiff SpecModel.labelOf Samples.store "42")
    as [page|err] eqn:E; [|discriminate E].
  exists page; split; [reflexivity|].
  destruct (page_sent_only_when_all_succeed
              SpecModel.FormattedChange SpecModel.EntityDiffBlock
              (SpecModel.baseFormatter SpecModel.labelOf)
              SpecModel.publisherSetFormatter
              SpecModel.releaseEventSetFormatter
              SpecModel.languageSetFormatter SpecModel.entityFormatter
              Samples.store "42" page E)
    as (rev & a & e & g & p & w & Hr & _ & _ & _ & _ & _ & ->).
  exists rev; repeat split; exact Hr.
Defined.

(** ** The rows of one kind *)

Lemma all_rejected_inv {A : Type} (ps : list (Promise A)) e :
  outcome (Bluebird.all ps) = Rejected e ->
  exists p, In p ps /\ outcome p = Rejected e.
Proof.
  induction ps as [|q ps IH]; simpl; [discriminate|].
  rewrite outcome_thenSync.
  destruct (outcome (Bluebird.both q (Bluebird.all ps)))
    as [[v vs]|e'] eqn:E; [discriminate|].
  intros H; injection H as ->.
  apply both_rejection_source in E; destruct E as [E|E].
  - exists q; auto.
  - destruct (IH E) as [p [Hin Hp]]; exists p; auto.
Qed.

(** What [diffRevisionsWithParents] maps over the rows. *)
Lemma row_outcome (row : EntityRevision) :
  outcome
    (Bluebird.thenP (parent row)
       (fun parent =>
          Bluebird.thenSync (diff row parent)
            (fun changes =>
               Resolved (mkDiff changes (related_entity row)))))
  = match outcome (parent row) with
    | Resolved p =>
        match outcome (diff row p) with
        | Resolved cs => Resolved (mkDiff cs (related_entity row))
        | Rejected e => Rejected e
        end
    | Rejected e => Rejected e
    end.
Proof.
  rewrite outcome_thenP; destruct (outcome (parent row)); [|reflexivity].
  apply outcome_thenSync.
Qed.

(** X10.  When every row can be diffed against its parent, the resolution
    of a kind yields one diff per row, in the order of the rows: the diff
    of a row carries the row's entity and the changes of the row against its
    parent. *)
Theorem diffs_follow_the_rows (rows : list EntityRevision) :
  forallb (fun row => negb (rowFails row)) rows = true ->
  exists ds,
    outcome (diffRevisionsWithParents rows) = Resolved ds
    /\ map entity ds = map related_entity rows
    /\ Forall2
         (fun row d =>
            exists p,
              outcome (parent row) = Resolved p
              /\ outcome (diff row p) = Resolved (changes d))
         rows ds.
Proof.
  unfold diffRevisionsWithParents.
  induction rows as [|row rows IH]; simpl.
  - intros _; exists []; repeat split; constructor.
  - intros H; apply andb_true_iff in H; destruct H as [Hrow Hrows].
    destruct (IH Hrows) as (ds & Hds & Hent & Hall).
    apply negb_true_iff in Hrow; unfold rowFails in Hrow.
    destruct (outcome (parent row)) as [p|] eqn:Hp; [|discriminate].
    destruct (outcome (diff row p)) as [cs|] eqn:Hd; [|discriminate].
    exists (mkDiff cs (related_entity row) :: ds).
    split; [|split].
    + rewrite outcome_thenSync.
      erewrite both_resolved; [reflexivity| |exact Hds].
      rewrite row_outcome, Hp, Hd; reflexivity.
    + simpl; rewrite Hent; reflexivity.
    + constructor; [exists p; auto|exact Hall].
Qed.

Lemma diffs_follow_the_rows_witness :
  exists ds,
    outcome (diffRevisionsWithParents [Samples.workRow; Samples.authorRow])
    = Resolved ds
    /\ map entity ds = [Samples.someWork; Samples.someAuthor].
Proof.
  destruct (diffs_follow_the_rows [Samples.workRow; Samples.authorRow]
              eq_refl) as (ds & Hds & Hent & _).
  exists ds; split; [exact Hds|exact Hent].
Defined.

Lemma failing_row_rejects (rows : list EntityRevision) :
  existsb rowFails rows = true ->
  exists e, outcome (diffRevisionsWithParents rows) = Rejected e.
Proof.
  unfold diffRevisionsWithParents.
  intros H; apply existsb_exists in H; destruct H as [row [Hin Hf]].
  unfold rowFails in Hf.
  assert (Hrow : exists e,
             outcome
               (Bluebird.thenP (parent row)
                  (fun parent =>
                     Bluebird.thenSync (diff row parent)
                       (fun changes =>
                          Resolved (mkDiff changes (related_entity row)))))
             = Rejected e).
  { rewrite row_outcome.
    destruct (outcome (parent row)) as [q|e]; [|exists e; reflexivity].
    destruct (outcome (diff row q)) as [|e];
      [discriminate|exists e; reflexivity]. }
  destruct Hrow as [e He].
  eapply all_rejects; [|exact He].
  apply (in_map
           (fun revision =>
              Bluebird.thenP (parent revision)
                (fun parent =>
                   Bluebird.thenSync (diff revision parent)
                     (fun changes =>
                        Resolved
                          (mkDiff changes (related_entity revision))))));
    exact Hin.
Qed.

(** X11.  The resolution of a kind is all or nothing: it is rejected exactly
    when some row cannot be diffed, because its [parent()] or its
    [diff(parent)] is rejected; the rows that could be diffed are then
    lost with it. *)
Theorem one_failing_row_rejects_the_kind (rows : list EntityRevision) :
  (exists e, outcome (diffRevisionsWithParents rows) = Rejected e)
  <-> existsb rowFails rows = true.
Proof.
  split; [|apply failing_row_rejects].
  unfold diffRevisionsWithParents.
  intros [e H]; apply all_rejected_inv in H.
  destruct H as [p [Hin Hp]].
  apply in_map_iff in Hin; destruct Hin as [row [<- Hin]].
  apply existsb_exists; exists row; split; [exact Hin|].
  rewrite row_outcome in Hp; unfold rowFails.
  destruct (outcome (parent row)) as [q|]; [|reflexivity].
  destruct (outcome (diff row q)); [discriminate|reflexivity].
Qed.

(** X12.  One row that cannot be diffed, of whatever kind, fails the whole
    request: nothing is sent for the revision, not even the blocks of the
    other kinds. *)
Theorem one_failing_row_fails_the_request (F B : Type)
    (bf : BaseFormatter F) (ps rs ls : SetFormatter F)
    (ef : EntityFormatter F B) (orm : Orm) (id : string)
    (k : EntityKind) (rows : list EntityRevision) :
  outcome (fetchAll orm k id) = Resolved rows ->
  existsb rowFails rows = true ->
  exists err, router_get F B bf ps rs ls ef orm id = Next err.
Proof.
  intros Hrows Hfail.
  destruct (failing_row_rejects rows Hfail) as [e He].
  rewrite <- (createRevision_rows orm k id rows Hrows) in He.
  destruct (fanIn_rejects orm id k e He) as [err Herr].
  exists err; rewrite router_get_unfold, Herr; reflexivity.
Qed.

Lemma one_failing_row_fails_the_request_witness :
  existsb rowFails [Samples.authorRow; Cases.orphanRow] = true
  /\ exists err,
       Engine.getRevisionDiff SpecModel.labelOf Cases.orphanStore "42"
       = Next err.
Proof.
  split; [reflexivity|].
  exact (one_failing_row_fails_the_request
           SpecModel.FormattedChange SpecModel.EntityDiffBlock
           (SpecModel.baseFormatter SpecModel.labelOf)
           SpecModel.publisherSetFormatter SpecModel.releaseEventSetFormatter
           SpecModel.languageSetFormatter SpecModel.entityFormatter
           Cases.orphanStore "42" Author
           [Samples.authorRow; Cases.orphanRow] eq_refl eq_refl).
Defined.
